(** * The Arrow filesystem adapter of fsspec (fsspec/implementations/arrow.py)

    A shallow embedding of [wrap_exceptions], [ArrowFSWrapper] and
    [ArrowFile].  Python strings are [string]; exceptions are values of
    [exn]; the wrapped pyarrow filesystem is an interface ([Provider]) over
    an abstract provider state, and every adapter method is a function in a
    state-and-exception monad over that state together with the log of the
    provider calls made so far. *)

From Stdlib Require Import String Ascii List ZArith Bool Lia.
Import ListNotations.
Open Scope string_scope.

(** ** Python string operations used by the adapter *)

Module PyStr.

(** [s[n:]]. *)
Fixpoint skip (n : nat) (s : string) : string :=
  match n, s with
  | O, _ => s
  | S _, EmptyString => EmptyString
  | S n', String _ s' => skip n' s'
  end.

(** [sub in s]. *)
Fixpoint contains (sub s : string) : bool :=
  if String.prefix sub s then true
  else match s with
       | EmptyString => false
       | String _ s' => contains sub s'
       end.

(** The text before and after the first occurrence of [sep] in [s]. *)
Fixpoint split_first (sep s : string) : option (string * string) :=
  if String.prefix sep s then Some (EmptyString, skip (String.length sep) s)
  else match s with
       | EmptyString => None
       | String c s' =>
           match split_first sep s' with
           | Some (h, t) => Some (String c h, t)
           | None => None
           end
       end.

(** [s.partition(sep)] for a non-empty [sep]. *)
Definition partition (sep s : string) : string * string * string :=
  match split_first sep s with
  | Some (h, t) => (h, sep, t)
  | None => (s, EmptyString, EmptyString)
  end.

Definition mem (c : ascii) (chars : string) : bool :=
  existsb (Ascii.eqb c) (list_ascii_of_string chars).

(** [s.rstrip(chars)]. *)
Fixpoint rstrip (chars s : string) : string :=
  match s with
  | EmptyString => EmptyString
  | String c s' =>
      match rstrip chars s' with
      | EmptyString => if mem c chars then EmptyString else String c EmptyString
      | r => String c r
      end
  end.

Definition hex_digit (n : nat) : ascii :=
  nth n (list_ascii_of_string "0123456789abcdef") "0"%char.

(** The double quote character. *)
Definition dquote : ascii := ascii_of_nat 34.

(** Code points below 256 that [str.isprintable] rejects: the control
    characters, the no-break space and the soft hyphen. *)
Definition printable (n : nat) : bool :=
  Nat.leb 32 n && negb (Nat.leb 127 n && Nat.leb n 160) && negb (Nat.eqb n 173).

(** How [repr] writes one character inside the quotes [quote]. *)
Definition repr_char (quote c : ascii) : string :=
  let n := nat_of_ascii c in
  if Ascii.eqb c quote || Ascii.eqb c "\"%char then String "\" (String c EmptyString)
  else if Nat.eqb n 9 then "\t"
  else if Nat.eqb n 10 then "\n"
  else if Nat.eqb n 13 then "\r"
  else if printable n then String c EmptyString
  else String "\" (String "x" (String (hex_digit (Nat.div n 16))
                                      (String (hex_digit (Nat.modulo n 16)) EmptyString))).

Fixpoint repr_chars (quote : ascii) (s : string) : string :=
  match s with
  | EmptyString => EmptyString
  | String c s' => repr_char quote c ++ repr_chars quote s'
  end.

(** [repr(s)], the characters of [s] read as the code points 0 to 255:
    single quotes around the text, or double quotes when the text holds a
    single quote and no double quote; the quote in use and the backslash
    escaped, tab, newline and carriage return written as letters and every
    other unprintable character as two hexadecimal digits. *)
Definition repr (s : string) : string :=
  let quote :=
    if mem "'"%char s && negb (mem dquote s) then dquote else "'"%char in
  String quote (repr_chars quote s ++ String quote EmptyString).

End PyStr.

(** ** Path normalisation *)

(** [fsspec.utils.stringify_path] is the identity on [str] paths, the only
    paths of this model. *)
Definition stringify_path (path : string) : string := path.

Definition _strip_protocol (path : string) : string :=
  let path := stringify_path path in
  if PyStr.contains "://" path
  then let '(_, _, path) := PyStr.partition "://" path in path
  else path.

(** ** Python values and exceptions *)

Inductive pyval : Type :=
| PStr (s : string)
| PInt (n : Z)
| PNone.

(** The exception classes the adapter raises, catches or lets through. *)
Inductive exn_class : Type :=
| BaseException
| KeyboardInterrupt
| Exception
| ValueError
| OSError
| FileNotFoundError
| PermissionError.

Definition issubclass (c d : exn_class) : bool :=
  match d, c with
  | BaseException, _ => true
  | Exception, (Exception | ValueError | OSError | FileNotFoundError | PermissionError) => true
  | OSError, (OSError | FileNotFoundError | PermissionError) => true
  | KeyboardInterrupt, KeyboardInterrupt => true
  | ValueError, ValueError => true
  | FileNotFoundError, FileNotFoundError => true
  | PermissionError, PermissionError => true
  | _, _ => false
  end.

#[local] Set Warnings "-register-all".

(** An exception object: its class, its [args] tuple, the [filename]
    attribute of an OS error and the [__cause__] set by [raise ... from]. *)
Inductive exn : Type :=
| mkExn (cls : exn_class) (args : list pyval) (filename : option string) (cause : option exn).

Definition exn_cls (e : exn) : exn_class := let 'mkExn c _ _ _ := e in c.
Definition exn_args (e : exn) : list pyval := let 'mkExn _ a _ _ := e in a.
Definition exn_filename (e : exn) : option string := let 'mkExn _ _ f _ := e in f.
Definition exn_cause (e : exn) : option exn := let 'mkExn _ _ _ c := e in c.

Definition isinstance (e : exn) (c : exn_class) : bool := issubclass (exn_cls e) c.

(** The [errno] attribute: the first of the two arguments an OS error keeps
    when it was built from an error number and a message. *)
Definition exn_errno (e : exn) : option pyval :=
  if isinstance e OSError
  then match exn_args e with
       | [code; _] => Some code
       | _ => None
       end
  else None.

Definition ENOENT : Z := 2.

(** [os.strerror(errno.ENOENT)]. *)
Definition strerror_ENOENT : string := "No such file or directory".

(** The outcome of a call: a value or a raised exception. *)
Inductive Res (A : Type) : Type :=
| Ok (a : A)
| Raise (e : exn).
Arguments Ok {A} a.
Arguments Raise {A} e.

(** ** The provider (pyarrow.fs.FileSystem) *)

(** Modelled from the spec: the provider's type tags ([FileType] belongs
    to pyarrow, not to this repository).  "records with {path, type in
    {File, Directory, NotFound, other}, size, mtime}". *)
Inductive FileType : Type :=
| Directory
| File
| NotFound
| OtherTag (tag : nat).

Record FileInfo : Type := mkFileInfo {
  fi_path : string;
  fi_type : FileType;
  fi_size : option Z;
  fi_mtime : option Z
}.

(** The argument of [get_file_info]: a [FileSelector(base_dir)] or a list
    of paths. *)
Inductive Selector : Type :=
| FileSelector (base_dir : string)
| Paths (paths : list string).

(** The primitives the adapter consumes, over a provider state [St].
    [fs_copyfileobj] is [shutil.copyfileobj] over two provider streams
    (the proxies forward [read] and [write] to them); [fs_stream_close] is
    the stream's [close], which returns [None]. *)
Class Provider (St Stream : Type) : Type := {
  fs_get_file_info : Selector -> St -> Res (list FileInfo) * St;
  fs_open_input_stream : string -> St -> Res Stream * St;
  fs_open_output_stream : string -> St -> Res Stream * St;
  fs_move : string -> string -> St -> Res unit * St;
  fs_delete_file : string -> St -> Res unit * St;
  fs_delete_dir : string -> St -> Res unit * St;
  fs_create_dir : string -> bool -> St -> Res unit * St;
  fs_stream_close : Stream -> St -> Res unit * St;
  fs_copyfileobj : Stream -> Stream -> St -> Res unit * St
}.

(** A provider call as it is logged. *)
Inductive Call (Stream : Type) : Type :=
| GetFileInfo (sel : Selector)
| OpenInputStream (path : string)
| OpenOutputStream (path : string)
| Move (src dst : string)
| DeleteFile (path : string)
| DeleteDir (path : string)
| CreateDir (path : string) (recursive : bool)
| CopyFileObj (src dst : Stream)
| Close (stream : Stream).
Arguments GetFileInfo {Stream} sel.
Arguments OpenInputStream {Stream} path.
Arguments OpenOutputStream {Stream} path.
Arguments Move {Stream} src dst.
Arguments DeleteFile {Stream} path.
Arguments DeleteDir {Stream} path.
Arguments CreateDir {Stream} path recursive.
Arguments CopyFileObj {Stream} src dst.
Arguments Close {Stream} stream.


(** ** The generic entry shape *)

Record Entry : Type := mkEntry {
  e_name : string;
  e_size : option Z;
  e_type : string;
  e_mtime : option Z
}.

(** What [ls] returns: entries when [detail] is set, names otherwise. *)
Inductive Listing : Type :=
| Detailed (entries : list Entry)
| Names (names : list string).

(** [ArrowFSWrapper._make_entry]. *)
Definition _make_entry (info : FileInfo) : Res Entry :=
  match
    match fi_type info with
    | Directory => Ok "directory"
    | File => Ok "file"
    | NotFound =>
        Raise (mkExn FileNotFoundError [PInt ENOENT; PStr strerror_ENOENT]
                     (Some (fi_path info)) None)
    | OtherTag _ => Ok "other"
    end
  with
  | Raise e => Raise e
  | Ok kind =>
      Ok {| e_name := fi_path info;
            e_size := fi_size info;
            e_type := kind;
            e_mtime := fi_mtime info |}
  end.

(** ** The adapter *)

Declare Scope py_scope.
Delimit Scope py_scope with py.

Section Adapter.

Context {St Stream : Type} {P : Provider St Stream}.

(** The provider state together with the calls made on it, oldest first. *)
Record World : Type := mkWorld {
  pstate : St;
  calls : list (Call Stream)
}.

Definition M (A : Type) : Type := World -> Res A * World.

Definition ret {A} (a : A) : M A := fun w => (Ok a, w).

Definition raise {A} (e : exn) : M A := fun w => (Raise e, w).

Definition bind {A B} (m : M A) (k : A -> M B) : M B :=
  fun w =>
    match m w with
    | (Ok a, w') => k a w'
    | (Raise e, w') => (Raise e, w')
    end.

Definition lift {A} (r : Res A) : M A := fun w => (r, w).

(** One call of a provider primitive, logged. *)
Definition call {A} (c : Call Stream) (prim : St -> Res A * St) : M A :=
  fun w =>
    let '(r, s) := prim (pstate w) in
    (r, {| pstate := s; calls := calls w ++ [c] |}).

(** [try: body / except <clause>: handler]: [handler e] is [None] when no
    except clause matches [e]. *)
Definition try_except {A} (body : M A) (handler : exn -> option (M A)) : M A :=
  fun w =>
    match body w with
    | (Ok a, w') => (Ok a, w')
    | (Raise e, w') =>
        match handler e with
        | Some h => h w'
        | None => (Raise e, w')
        end
    end.

(** [with suppress(cls): body]. *)
Definition suppress (cls : exn_class) (body : M unit) : M unit :=
  try_except body (fun e => if isinstance e cls then Some (ret tt) else None).

Fixpoint mapM {A B} (f : A -> M B) (l : list A) : M (list B) :=
  match l with
  | [] => ret []
  | x :: l' => bind (f x) (fun y => bind (mapM f l') (fun ys => ret (y :: ys)))
  end.

End Adapter.

Notation "x <- c1 ;; c2" := (bind c1 (fun x => c2))
  (at level 61, c1 at next level, right associativity) : py_scope.
Notation "c1 ;; c2" := (bind c1 (fun _ => c2))
  (at level 61, right associativity) : py_scope.
Open Scope py_scope.

(** ** [wrap_exceptions] *)

(** The [except OSError as exception] clause: the exception that leaves
    it. *)
Definition on_oserror (exception : exn) : exn :=
  match exn_args exception with
  | [] => exception
  | message :: _ =>
      match message with
      | PStr text =>
          if PyStr.contains "does not exist" text
          then mkExn FileNotFoundError [PInt ENOENT; PStr text] None (Some exception)
          else exception
      | _ => exception
      end
  end.

Section Wrapper.

Context {St Stream : Type} {P : Provider St Stream}.

(** [_parent] is inherited from AbstractFileSystem (fsspec/spec.py) and
    taken as given. *)
Variable _parent : string -> string.

#[local] Abbreviation M := (@M St Stream).

Definition wrap_exceptions {A} (func : M A) : M A :=
  try_except func
    (fun exception =>
       if isinstance exception OSError
       then Some (raise (on_oserror exception))
       else None).

(** ** [ArrowFile] *)

Record ArrowFile : Type := mkArrowFile {
  af_stream : Stream;
  af_path : string;
  af_mode : string;
  af_block_size : option Z
}.

(** [close] is mirrored from the stream. *)
Definition af_close (f : ArrowFile) : M unit :=
  call (Close (af_stream f)) (fs_stream_close (af_stream f)).

(** [with mgr as f: body].  [__enter__] returns the file itself and
    [__exit__] returns what [close] returns, that is [None], so an
    exception of the body is not swallowed; an exception of [close]
    replaces it. *)
Definition with_ {A} (mgr : M ArrowFile) (body : ArrowFile -> M A) : M A :=
  fun w =>
    match mgr w with
    | (Raise e, w1) => (Raise e, w1)
    | (Ok f, w1) =>
        match body f w1 with
        | (Ok a, w2) =>
            match af_close f w2 with
            | (Ok _, w3) => (Ok a, w3)
            | (Raise e', w3) => (Raise e', w3)
            end
        | (Raise e, w2) =>
            match af_close f w2 with
            | (Ok _, w3) => (Raise e, w3)
            | (Raise e', w3) => (Raise e', w3)
            end
        end
    end.

(** ** [ArrowFSWrapper] *)

Definition ls (path : string) (detail : bool) : M Listing :=
  infos <- call (GetFileInfo (FileSelector path)) (fs_get_file_info (FileSelector path)) ;;
  entries <- mapM (fun entry => lift (_make_entry entry)) infos ;;
  if detail then ret (Detailed entries)
  else ret (Names (map e_name entries)).

(** [[info] = ...] raises [ValueError] unless the list has one element. *)
Definition unpack1 {A} (l : list A) : M A :=
  match l with
  | [x] => ret x
  | [] => raise (mkExn ValueError [PStr "not enough values to unpack (expected 1, got 0)"] None None)
  | _ => raise (mkExn ValueError [PStr "too many values to unpack (expected 1)"] None None)
  end.

Definition info (path : string) : M Entry :=
  let path := _strip_protocol path in
  infos <- call (GetFileInfo (Paths [path])) (fs_get_file_info (Paths [path])) ;;
  info <- unpack1 infos ;;
  lift (_make_entry info).

(** [exists]: [try: self.info(path)], [except FileNotFoundError: return
    False], [else: return True]. *)
Definition exists_ (path : string) : M bool :=
  let path := _strip_protocol path in
  fun w =>
    match info path w with
    | (Ok _, w') => (Ok true, w')
    | (Raise e, w') =>
        if isinstance e FileNotFoundError then (Ok false, w') else (Raise e, w')
    end.

(** Modelled from the spec: [isdir] is inherited from AbstractFileSystem
    (fsspec/spec.py, outside arrow.py).  "If the target is a directory": the
    target's kind is the type [info] reports; a lookup that fails with an
    OS-style error answers no. *)
Definition isdir (path : string) : M bool :=
  try_except
    (entry <- info path ;; ret (e_type entry =? "directory"))
    (fun e => if isinstance e OSError then Some (ret false) else None).

Definition _open (path mode : string) (block_size : option Z) : M ArrowFile :=
  wrap_exceptions
    (stream <-
       (if mode =? "rb" then
          call (OpenInputStream path) (fs_open_input_stream path)
        else if mode =? "wb" then
          call (OpenOutputStream path) (fs_open_output_stream path)
        else
          raise (mkExn ValueError
                   [PStr ("unsupported mode for Arrow filesystem: " ++ PyStr.repr mode)]
                   None None)) ;;
     ret (mkArrowFile stream path mode block_size)).

(** Modelled from the spec: the public [open] is inherited from
    AbstractFileSystem (fsspec/spec.py, outside arrow.py).  "each method
    normalizes the path, delegates to the provider"; for the binary modes
    it hands the normalized path to [_open]. *)
Definition open (path mode : string) (block_size : option Z) : M ArrowFile :=
  _open (_strip_protocol path) mode block_size.

Definition tmp_fname (path2 token : string) : string :=
  String.concat "/" [_parent path2; ".tmp." ++ token].

(** [io.IOBase.__del__], run when a file is released: [ArrowFile] mirrors
    [close] and never sets the closed flag of [io.IOBase], so the finalizer
    calls [close] once more; what that call raises is dropped. *)
Definition af_finalize (f : ArrowFile) : M unit :=
  fun w => (Ok tt, snd (af_close f w)).

(** [with self.open(tmp_fname, "wb") as rstream:
    shutil.copyfileobj(lstream, rstream)]; [rstream] stays bound after the
    block. *)
Definition cp_file_copy (lstream : ArrowFile) (tmp_fname : string) : M ArrowFile :=
  with_ (open tmp_fname "wb" None)
    (fun rstream =>
       call (CopyFileObj (af_stream lstream) (af_stream rstream))
            (fs_copyfileobj (af_stream lstream) (af_stream rstream)) ;;
       ret rstream).

(** The body of the [try] in [cp_file]. *)
Definition cp_file_try (lstream : ArrowFile) (tmp_fname path2 : string) : M ArrowFile :=
  rstream <- cp_file_copy lstream tmp_fname ;;
  call (Move tmp_fname path2) (fs_move tmp_fname path2) ;;
  ret rstream.

(** [try: ... except BaseException: ...] of [cp_file]. *)
Definition cp_file_guarded (lstream : ArrowFile) (tmp_fname path2 : string) : M ArrowFile :=
  try_except (cp_file_try lstream tmp_fname path2)
    (fun e =>
       if isinstance e BaseException
       then Some (suppress FileNotFoundError
                    (call (DeleteFile tmp_fname) (fs_delete_file tmp_fname)) ;;
                  raise e)
       else None).

(** [token] is the value of [secrets.token_hex(16)].  When the function
    returns, its locals [lstream] and [rstream] are released in the order
    they were bound, and each is finalized; when it raises, the traceback
    keeps them alive. *)
Definition cp_file (path1 path2 token : string) : M unit :=
  wrap_exceptions
    (let path1 := PyStr.rstrip "/" (_strip_protocol path1) in
     let path2 := PyStr.rstrip "/" (_strip_protocol path2) in
     files <- with_ (_open path1 "rb" None)
                (fun lstream =>
                   rstream <- cp_file_guarded lstream (tmp_fname path2 token) path2 ;;
                   ret (lstream, rstream)) ;;
     af_finalize (fst files) ;;
     af_finalize (snd files)).

Definition mv (path1 path2 : string) : M unit :=
  wrap_exceptions
    (let path1 := PyStr.rstrip "/" (_strip_protocol path1) in
     let path2 := PyStr.rstrip "/" (_strip_protocol path2) in
     call (Move path1 path2) (fs_move path1 path2)).

Definition mv_file := mv.

Definition rm_file (path : string) : M unit :=
  wrap_exceptions
    (let path := _strip_protocol path in
     call (DeleteFile path) (fs_delete_file path)).

Definition rm (path : string) (recursive : bool) (maxdepth : option Z) : M unit :=
  wrap_exceptions
    (let path := PyStr.rstrip "/" (_strip_protocol path) in
     d <- isdir path ;;
     if d then
       if recursive then call (DeleteDir path) (fs_delete_dir path)
       else raise (mkExn ValueError
                     [PStr "Can't delete directories without recursive=False"]
                     None None)
     else call (DeleteFile path) (fs_delete_file path)).

Definition makedirs (path : string) (exist_ok : bool) : M unit :=
  wrap_exceptions
    (let path := _strip_protocol path in
     call (CreateDir path true) (fs_create_dir path true)).

Definition mkdir (path : string) (create_parents : bool) : M unit :=
  wrap_exceptions
    (let path := _strip_protocol path in
     if create_parents then makedirs path true
     else call (CreateDir path false) (fs_create_dir path false)).

Definition rmdir (path : string) : M unit :=
  wrap_exceptions
    (let path := _strip_protocol path in
     call (DeleteDir path) (fs_delete_dir path)).

End Wrapper.

(** What [wrap_exceptions] does to an exception raised by the wrapped
    function. *)
Definition normalize (e : exn) : exn :=
  if isinstance e OSError then on_oserror e else e.

(** The [NotFound] failure the wrapper builds from [exception]. *)
Definition not_found_from (text : string) (exception : exn) : exn :=
  mkExn FileNotFoundError [PInt ENOENT; PStr text] None (Some exception).

(** [normalize] on an outcome. *)
Definition normalize_res {A} (r : Res A) : Res A :=
  match r with
  | Ok a => Ok a
  | Raise e => Raise (normalize e)
  end.

(** An outcome that carries no error the wrapper would still reclassify. *)
Definition settled {A W : Type} (out : Res A * W) : Prop :=
  match fst out with
  | Ok _ => True
  | Raise e => normalize e = e
  end.

(** The message of an OS error the wrapper reclassifies, if it is one. *)
Definition reclassifiable (e : exn) : option string :=
  if isinstance e OSError
  then match exn_args e with
       | PStr text :: _ => if PyStr.contains "does not exist" text then Some text else None
       | _ => None
       end
  else None.

(** ** A provider in memory

    A small provider that reports failures the way the wrapped one does,
    as plain OS errors told apart by their message only. *)

Module MemFS.

Inductive Node : Type :=
| NDir
| NFile (content : string).

(** The tree as an association list, and the path behind each open
    stream (a stream is its index). *)
Record State : Type := mkState {
  nodes : list (string * Node);
  handles : list string
}.

Fixpoint lookup (p : string) (l : list (string * Node)) : option Node :=
  match l with
  | [] => None
  | (q, n) :: l' => if q =? p then Some n else lookup p l'
  end.

Definition remove (p : string) (l : list (string * Node)) : list (string * Node) :=
  filter (fun qn => negb (fst qn =? p)) l.

Definition put (p : string) (n : Node) (l : list (string * Node)) : list (string * Node) :=
  remove p l ++ [(p, n)].

Definition info_of (l : list (string * Node)) (p : string) : FileInfo :=
  match lookup p l with
  | Some NDir => mkFileInfo p Directory None None
  | Some (NFile c) => mkFileInfo p File (Some (Z.of_nat (String.length c))) None
  | None => mkFileInfo p NotFound None None
  end.

(** The paths directly below directory [d]. *)
Definition children (d : string) (l : list (string * Node)) : list string :=
  map fst
    (filter
       (fun qn =>
          String.prefix (d ++ "/") (fst qn)
          && negb (PyStr.contains "/" (PyStr.skip (String.length d + 1) (fst qn))))
       l).

Definition os_error (msg : string) : exn := mkExn OSError [PStr msg] None None.

Definition missing (p : string) : exn := os_error ("Path " ++ p ++ " does not exist").

Definition get_file_info (sel : Selector) (s : State) : Res (list FileInfo) * State :=
  match sel with
  | Paths ps => (Ok (map (info_of (nodes s)) ps), s)
  | FileSelector d =>
      match lookup d (nodes s) with
      | Some NDir => (Ok (map (info_of (nodes s)) (children d (nodes s))), s)
      | Some (NFile _) => (Raise (os_error ("Not a directory: " ++ d)), s)
      | None => (Raise (missing d), s)
      end
  end.

Definition open_input_stream (p : string) (s : State) : Res nat * State :=
  match lookup p (nodes s) with
  | Some (NFile _) =>
      (Ok (List.length (handles s)), mkState (nodes s) (handles s ++ [p]))
  | Some NDir => (Raise (os_error ("Not a regular file: " ++ p)), s)
  | None => (Raise (missing p), s)
  end.

(** The part of a path before its last slash, when it has one. *)
Fixpoint before_last_slash (s : string) : option string :=
  match s with
  | EmptyString => None
  | String c s' =>
      match before_last_slash s' with
      | Some h => Some (String c h)
      | None => if Ascii.eqb c "/" then Some EmptyString else None
      end
  end.

Fixpoint lstrip_slash (s : string) : string :=
  match s with
  | String c s' => if Ascii.eqb c "/" then lstrip_slash s' else s
  | EmptyString => EmptyString
  end.

(** The directory a path lies in. *)
Definition dirname (p : string) : string :=
  match before_last_slash p with
  | Some EmptyString | None => "/"
  | Some h => h
  end.

Definition is_dir (p : string) (l : list (string * Node)) : bool :=
  (p =? "/") ||
  match lookup p l with
  | Some NDir => true
  | _ => false
  end.

Definition open_output_stream (p : string) (s : State) : Res nat * State :=
  match lookup p (nodes s) with
  | Some NDir => (Raise (os_error ("Not a regular file: " ++ p)), s)
  | _ =>
      if is_dir (dirname p) (nodes s)
      then (Ok (List.length (handles s)),
            mkState (put p (NFile "") (nodes s)) (handles s ++ [p]))
      else (Raise (missing (dirname p)), s)
  end.

Definition content_at (p : string) (l : list (string * Node)) : option string :=
  match lookup p l with
  | Some (NFile c) => Some c
  | _ => None
  end.

Definition copyfileobj (src dst : nat) (s : State) : Res unit * State :=
  match nth_error (handles s) src, nth_error (handles s) dst with
  | Some ps, Some pd =>
      match content_at ps (nodes s), content_at pd (nodes s) with
      | Some cs, Some cd =>
          (Ok tt, mkState (put pd (NFile (cd ++ cs)) (nodes s)) (handles s))
      | _, _ => (Raise (os_error "I/O operation on a removed file"), s)
      end
  | _, _ => (Raise (mkExn ValueError [PStr "I/O operation on closed file"] None None), s)
  end.

Definition stream_close (h : nat) (s : State) : Res unit * State := (Ok tt, s).

Definition move (a b : string) (s : State) : Res unit * State :=
  match lookup a (nodes s) with
  | None => (Raise (missing a), s)
  | Some n =>
      match lookup b (nodes s) with
      | Some NDir => (Raise (os_error ("Cannot rename onto a directory: " ++ b)), s)
      | _ => (Ok tt, mkState (put b n (remove a (nodes s))) (handles s))
      end
  end.

Definition delete_file (p : string) (s : State) : Res unit * State :=
  match lookup p (nodes s) with
  | Some (NFile _) => (Ok tt, mkState (remove p (nodes s)) (handles s))
  | Some NDir => (Raise (os_error ("Is a directory: " ++ p)), s)
  | None => (Raise (missing p), s)
  end.

Definition delete_dir (p : string) (s : State) : Res unit * State :=
  match lookup p (nodes s) with
  | Some NDir =>
      (Ok tt,
       mkState
         (filter (fun qn => negb ((fst qn =? p) || String.prefix (p ++ "/") (fst qn)))
                 (nodes s))
         (handles s))
  | Some (NFile _) => (Raise (os_error ("Not a directory: " ++ p)), s)
  | None => (Raise (missing p), s)
  end.

Definition create_dir (p : string) (recursive : bool) (s : State) : Res unit * State :=
  match lookup p (nodes s) with
  | Some NDir =>
      if recursive then (Ok tt, s)
      else (Raise (os_error ("Cannot create directory, it exists: " ++ p)), s)
  | Some (NFile _) => (Raise (os_error ("Not a directory: " ++ p)), s)
  | None => (Ok tt, mkState (put p NDir (nodes s)) (handles s))
  end.

#[global] Instance provider : Provider State nat := {
  fs_get_file_info := get_file_info;
  fs_open_input_stream := open_input_stream;
  fs_open_output_stream := open_output_stream;
  fs_move := move;
  fs_delete_file := delete_file;
  fs_delete_dir := delete_dir;
  fs_create_dir := create_dir;
  fs_stream_close := stream_close;
  fs_copyfileobj := copyfileobj
}.

(** Modelled from the spec: [_parent] is inherited from AbstractFileSystem
    (fsspec/spec.py, outside arrow.py).  "a unique temporary name in path2's
    parent directory": the path up to its last slash, under the root
    marker. *)
Definition parent (path : string) : string :=
  match before_last_slash (_strip_protocol path) with
  | Some h => "/" ++ lstrip_slash h
  | None => "/"
  end.

(** A tree with a file, a directory holding a file and a subdirectory,
    and a file whose name is what remains of a doubly prefixed path. *)
Definition tree : State :=
  mkState
    [("/d", NDir); ("/d/f", NFile "hello"); ("/d/sub", NDir);
     ("/src", NDir); ("/src/a", NFile "payload"); ("c", NFile "x")]
    [].

Definition world0 : @World State nat := mkWorld tree [].









(** A tree with the root directory and a directory whose name holds a
    marker. *)
Definition tree_marked : State :=
  mkState [("/", NDir); ("b://c", NDir); ("b://c/f", NFile "x")] [].

Definition world_marked : @World State nat := mkWorld tree_marked [].

End MemFS.

(** ** A provider that cannot be reached

    Every primitive fails with the same connection error and changes
    nothing. *)

Module Offline.

Definition refused : exn := mkExn OSError [PStr "Connection refused"] None None.

Definition fail {A : Type} (s : unit) : Res A * unit := (Raise refused, s).

#[global] Instance provider : Provider unit unit := {
  fs_get_file_info := fun _ => fail;
  fs_open_input_stream := fun _ => fail;
  fs_open_output_stream := fun _ => fail;
  fs_move := fun _ _ => fail;
  fs_delete_file := fun _ => fail;
  fs_delete_dir := fun _ => fail;
  fs_create_dir := fun _ _ => fail;
  fs_stream_close := fun _ => fail;
  fs_copyfileobj := fun _ _ => fail
}.

Definition world0 : @World unit unit := mkWorld tt [].

End Offline.

(** ** [HadoopFileSystemWrapper._get_kwargs_from_urls] *)

(** A Python dict with string keys, in insertion order. *)
Definition dict : Type := list (string * pyval).

(** [d.get(k, None)], with [None] for Python's [None] default. *)
Fixpoint dict_get (k : string) (d : dict) : option pyval :=
  match d with
  | [] => None
  | (k', v) :: d' => if k' =? k then Some v else dict_get k d'
  end.

(** [d[k] = v]: the value is replaced where the key is, or added last. *)
Fixpoint dict_set (k : string) (v : pyval) (d : dict) : dict :=
  match d with
  | [] => [(k, v)]
  | (k', v') :: d' => if k' =? k then (k', v) :: d' else (k', v') :: dict_set k v d'
  end.

(** Truth value of a string, an integer or [None]. *)
Definition truthy (v : pyval) : bool :=
  match v with
  | PStr s => negb (s =? "")
  | PInt n => negb (n =? 0)%Z
  | PNone => false
  end.

(** [if ops.get(src, None): out[dst] = ops[src]]. *)
Definition copy_if_set (src dst : string) (ops out : dict) : dict :=
  match dict_get src ops with
  | Some v => if truthy v then dict_set dst v out else out
  | None => out
  end.

Section Hadoop.

(** [fsspec.utils.infer_storage_options] is taken as given. *)
Variable infer_storage_options : string -> dict.

Definition _get_kwargs_from_urls (path : string) : dict :=
  let ops := infer_storage_options path in
  let out := [] in
  let out := copy_if_set "host" "host" ops out in
  let out := copy_if_set "username" "user" ops out in
  let out := copy_if_set "port" "port" ops out in
  out.

End Hadoop.

(** ** Facts about the string operations *)

Section StringFacts.

Lemma prefix_skip (a s : string) :
  String.prefix a s = true -> s = a ++ PyStr.skip (String.length a) s.
Proof.
  revert s; induction a as [|c a IH]; intros s H.
  - destruct s; reflexivity.
  - destruct s as [|d s]; simpl in H; [discriminate|].
    destruct (ascii_dec c d) as [->|]; [|discriminate].
    simpl. f_equal. apply IH, H.
Qed.

Lemma prefix_append (a s : string) : String.prefix a (a ++ s) = true.
Proof.
  induction a as [|c a IH]; simpl.
  - destruct s; reflexivity.
  - destruct (ascii_dec c c); [exact IH|congruence].
Qed.

Lemma split_first_sound (sep s h t : string) :
  PyStr.split_first sep s = Some (h, t) -> s = h ++ sep ++ t.
Proof.
  revert h t; induction s as [|c s IH]; intros h t; cbn [PyStr.split_first].
  - destruct (String.prefix sep "") eqn:E; [|discriminate].
    intros [= <- <-]. apply prefix_skip in E. exact E.
  - destruct (String.prefix sep (String c s)) eqn:E.
    + intros [= <- <-]. apply prefix_skip in E. exact E.
    + destruct (PyStr.split_first sep s) as [[h' t']|]; [|discriminate].
      intros [= <- <-]. simpl. f_equal. apply IH. reflexivity.
Qed.

Lemma contains_split_first (sep s : string) :
  PyStr.contains sep s = true <-> PyStr.split_first sep s <> None.
Proof.
  induction s as [|c s IH]; cbn [PyStr.contains PyStr.split_first].
  - destruct (String.prefix sep ""); split; congruence.
  - destruct (String.prefix sep (String c s)); [split; congruence|].
    rewrite IH. destruct (PyStr.split_first sep s) as [[h t]|]; split; congruence.
Qed.

(** [contains] is substring containment. *)
Lemma contains_spec (sub s : string) :
  PyStr.contains sub s = true <-> exists pre post, s = pre ++ sub ++ post.
Proof.
  split.
  - intros H. apply contains_split_first in H.
    destruct (PyStr.split_first sub s) as [[h t]|] eqn:E; [|congruence].
    exists h, t. apply split_first_sound, E.
  - intros (pre & post & ->). induction pre as [|c pre IH].
    + change ("" ++ sub ++ post) with (sub ++ post).
      destruct (sub ++ post) eqn:E; cbn [PyStr.contains];
        rewrite <- E, prefix_append; reflexivity.
    + change (String c pre ++ sub ++ post) with (String c (pre ++ sub ++ post)).
      cbn [PyStr.contains]. rewrite IH.
      destruct (String.prefix sub (String c (pre ++ sub ++ post))); reflexivity.
Qed.

Lemma length_append (a b : string) :
  String.length (a ++ b) = String.length a + String.length b.
Proof. induction a; simpl; congruence. Qed.

Lemma strip_without_marker (p : string) :
  PyStr.contains "://" p = false -> _strip_protocol p = p.
Proof. unfold _strip_protocol, stringify_path. intros ->. reflexivity. Qed.

(** When the marker is present, the result is what follows its first
    occurrence, which is strictly shorter than the input. *)
Lemma strip_with_marker (p : string) :
  PyStr.contains "://" p = true ->
  exists h, p = h ++ "://" ++ _strip_protocol p.
Proof.
  unfold _strip_protocol, stringify_path, PyStr.partition. intros H. rewrite H.
  apply contains_split_first in H.
  destruct (PyStr.split_first "://" p) as [[h t]|] eqn:E; [|congruence].
  exists h. apply split_first_sound, E.
Qed.

Lemma strip_shorter (p : string) :
  PyStr.contains "://" p = true ->
  String.length (_strip_protocol p) < String.length p.
Proof.
  intros H. destruct (strip_with_marker p H) as [h E].
  rewrite E at 2. rewrite !length_append. simpl. lia.
Qed.

Lemma prefix_app (sep s x : string) :
  String.prefix sep s = true ->
  String.prefix sep (s ++ x) = true /\
  PyStr.skip (String.length sep) (s ++ x) = PyStr.skip (String.length sep) s ++ x.
Proof.
  revert s. induction sep as [|c sep IH]; intros s H.
  - split; [destruct (s ++ x); reflexivity|reflexivity].
  - destruct s as [|d s]; [discriminate H|].
    cbn [String.prefix] in H.
    change (String d s ++ x) with (String d (s ++ x)). cbn [String.prefix String.length PyStr.skip].
    destruct (ascii_dec c d); [|discriminate H]. apply IH, H.
Qed.

Lemma marker_not_at (c : ascii) (s rest : string) :
  String.prefix "://" (String c s) = false ->
  String.prefix "://" (String c (s ++ "://" ++ rest)) = false.
Proof.
  intros H. cbn [String.prefix append] in *.
  destruct (ascii_dec ":" c) as [_|]; [|reflexivity].
  destruct s as [|d s]; cbn [String.prefix append] in *; [reflexivity|].
  destruct (ascii_dec "/" d) as [_|]; [|reflexivity].
  destruct s as [|e s]; cbn [String.prefix append] in *; [reflexivity|].
  destruct (ascii_dec "/" e) as [_|]; [|reflexivity].
  destruct s; discriminate H.
Qed.

Lemma split_first_after_scheme (scheme rest : string) :
  PyStr.contains "://" scheme = false ->
  PyStr.split_first "://" (scheme ++ "://" ++ rest) = Some (scheme, rest).
Proof.
  induction scheme as [|c scheme IH]; intros Hnone.
  - destruct rest; reflexivity.
  - cbn [PyStr.contains] in Hnone.
    destruct (String.prefix "://" (String c scheme)) eqn:Here; [discriminate|].
    change (String c scheme ++ "://" ++ rest) with (String c (scheme ++ "://" ++ rest)).
    cbn [PyStr.split_first]. rewrite (marker_not_at c scheme rest Here).
    rewrite (IH Hnone). reflexivity.
Qed.

(** What precedes the first marker holds no marker. *)
Lemma split_first_head_clean (s h t : string) :
  PyStr.split_first "://" s = Some (h, t) -> PyStr.contains "://" h = false.
Proof.
  revert h t. induction s as [|c s IH]; intros h t Hs; cbn [PyStr.split_first] in Hs.
  - destruct (String.prefix "://" ""); [|discriminate Hs]. inversion Hs. reflexivity.
  - destruct (String.prefix "://" (String c s)) eqn:E.
    + inversion Hs. reflexivity.
    + destruct (PyStr.split_first "://" s) as [[h' t']|] eqn:Es; [|discriminate Hs].
      inversion Hs; subst h t. cbn [PyStr.contains]. rewrite (IH h' t' eq_refl).
      destruct (String.prefix "://" (String c h')) eqn:E'; [|reflexivity].
      apply split_first_sound in Es. subst s.
      destruct (prefix_app "://" (String c h') ("://" ++ t') E') as [Hp _].
      change (String c h' ++ "://" ++ t') with (String c (h' ++ "://" ++ t')) in Hp.
      congruence.
Qed.

End StringFacts.

(** ** Path normalisation: idempotence *)

(** C4, as stated, fails: a chained URL carries two markers, and each
    application of [_strip_protocol] removes the text up to the first one
    only, so the second application strips again. *)
Lemma strip_protocol_twice_counterexample :
  PyStr.contains "://" "zip://a.csv::hdfs://h/b.zip" = true /\
  _strip_protocol "zip://a.csv::hdfs://h/b.zip" = "a.csv::hdfs://h/b.zip" /\
  _strip_protocol (_strip_protocol "zip://a.csv::hdfs://h/b.zip") = "h/b.zip" /\
  _strip_protocol (_strip_protocol "zip://a.csv::hdfs://h/b.zip")
    <> _strip_protocol "zip://a.csv::hdfs://h/b.zip".
Proof. repeat split. vm_compute. discriminate. Qed.

(** C4, amended: a path [p] that contains the marker is a scheme without
    marker, the marker and a rest; [_strip_protocol] removes the scheme and
    that first marker only, returning the rest, and applied twice it equals
    itself applied once exactly when the rest holds no further marker. *)
Theorem strip_protocol_idempotent_iff (p : string) :
  PyStr.contains "://" p = true ->
  exists scheme rest,
    p = scheme ++ "://" ++ rest /\
    PyStr.contains "://" scheme = false /\
    _strip_protocol p = rest /\
    (_strip_protocol (_strip_protocol p) = _strip_protocol p <->
     PyStr.contains "://" rest = false).
Proof.
  intros Hp. pose proof Hp as Hfound. apply contains_split_first in Hfound.
  destruct (PyStr.split_first "://" p) as [[scheme rest]|] eqn:Hsplit; [|congruence].
  assert (Hstrip : _strip_protocol p = rest).
  { unfold _strip_protocol, stringify_path, PyStr.partition.
    rewrite Hp, Hsplit. reflexivity. }
  exists scheme, rest. split; [apply split_first_sound, Hsplit|].
  split; [apply (split_first_head_clean p scheme rest Hsplit)|].
  split; [exact Hstrip|]. rewrite Hstrip. split.
  - intros Hidem. destruct (PyStr.contains "://" rest) eqn:Again; [|reflexivity].
    pose proof (strip_shorter rest Again) as Hlt. rewrite Hidem in Hlt. lia.
  - apply strip_without_marker.
Qed.

Lemma strip_protocol_idempotent_witness :
  _strip_protocol (_strip_protocol "hdfs://host/x") = _strip_protocol "hdfs://host/x".
Proof.
  destruct (strip_protocol_idempotent_iff "hdfs://host/x" eq_refl)
    as (scheme & rest & _ & _ & Hstrip & Hiff).
  apply Hiff. rewrite <- Hstrip. reflexivity.
Defined.

(** ** The entry translator *)

(** C5: [_make_entry] maps the Directory tag to "directory", the File tag
    to "file" and every other tag but NotFound to "other", keeping path,
    size and mtime; on the NotFound tag it raises FileNotFoundError with
    the ENOENT code and returns no entry. *)
Theorem make_entry_by_tag (path : string) (size mtime : option Z) :
  _make_entry (mkFileInfo path Directory size mtime)
    = Ok (mkEntry path size "directory" mtime) /\
  _make_entry (mkFileInfo path File size mtime)
    = Ok (mkEntry path size "file" mtime) /\
  (forall tag, _make_entry (mkFileInfo path (OtherTag tag) size mtime)
    = Ok (mkEntry path size "other" mtime)) /\
  (exists e, _make_entry (mkFileInfo path NotFound size mtime) = Raise e /\
     exn_cls e = FileNotFoundError /\
     exn_errno e = Some (PInt ENOENT) /\
     exn_filename e = Some path) /\
  (forall entry, _make_entry (mkFileInfo path NotFound size mtime) <> Ok entry).
Proof.
  split; [reflexivity|]. split; [reflexivity|]. split; [intros tag; reflexivity|].
  split.
  - eexists. split; [reflexivity|]. repeat split.
  - intros entry; cbn; discriminate.
Qed.

(** ** The exception normalizer *)

Section WrapperFacts.

Context {St Stream : Type} {P : Provider St Stream}.

#[local] Abbreviation M := (@M St Stream).

Lemma wrap_exceptions_ok {A} (func : M A) w a w' :
  func w = (Ok a, w') -> wrap_exceptions func w = (Ok a, w').
Proof. unfold wrap_exceptions, try_except. intros ->. reflexivity. Qed.

Lemma wrap_exceptions_raise {A} (func : M A) w e w' :
  func w = (Raise e, w') -> wrap_exceptions func w = (Raise (normalize e), w').
Proof.
  unfold wrap_exceptions, try_except, normalize. intros ->.
  destruct (isinstance e OSError); reflexivity.
Qed.

(** The wrapper never lets out an error it would reclassify. *)
Lemma normalize_settled (e : exn) : reclassifiable (normalize e) = None.
Proof.
  unfold normalize, reclassifiable.
  destruct (isinstance e OSError) eqn:Os; [|rewrite Os; reflexivity].
  unfold on_oserror. destruct (exn_args e) as [|[text| |] rest] eqn:Args;
    rewrite ?Os, ?Args; try reflexivity.
  destruct (PyStr.contains "does not exist" text) eqn:C.
  - reflexivity.
  - rewrite Os, Args, C. reflexivity.
Qed.

(** No error is reclassified twice. *)
Lemma normalize_idempotent (e : exn) : normalize (normalize e) = normalize e.
Proof.
  pose proof (normalize_settled e) as H. revert H.
  generalize (normalize e). intros x. unfold reclassifiable, normalize, on_oserror.
  destruct (isinstance x OSError); [|reflexivity].
  destruct (exn_args x) as [|[text| |] rest]; try reflexivity.
  destruct (PyStr.contains "does not exist" text); [discriminate|reflexivity].
Qed.

Lemma normalize_reclassifiable (e : exn) (text : string) :
  reclassifiable e = Some text -> normalize e = not_found_from text e.
Proof.
  unfold reclassifiable, normalize, on_oserror, not_found_from.
  destruct (isinstance e OSError); [|discriminate].
  destruct (exn_args e) as [|[t| |] rest]; try discriminate.
  destruct (PyStr.contains "does not exist" t); [|discriminate].
  intros [= ->]. reflexivity.
Qed.

Lemma normalize_other (e : exn) : reclassifiable e = None -> normalize e = e.
Proof.
  unfold reclassifiable, normalize, on_oserror.
  destruct (isinstance e OSError); [|reflexivity].
  destruct (exn_args e) as [|[t| |] rest]; try reflexivity.
  destruct (PyStr.contains "does not exist" t); [discriminate|reflexivity].
Qed.


(** C10: an OS error whose first argument is not text is re-raised
    unchanged, whatever its later arguments say. *)
Theorem wrap_exceptions_first_argument_only {A} (func : M A) (w w' : World)
    (e : exn) (first : pyval) (rest : list pyval) :
  func w = (Raise e, w') ->
  isinstance e OSError = true ->
  exn_args e = first :: rest ->
  (forall text, first <> PStr text) ->
  wrap_exceptions func w = (Raise e, w').
Proof.
  intros Hf Hos Hargs Hfirst. rewrite (wrap_exceptions_raise _ _ _ _ Hf).
  unfold normalize, on_oserror. rewrite Hos, Hargs.
  destruct first as [text| |]; try reflexivity.
  exfalso. apply (Hfirst text). reflexivity.
Qed.

End WrapperFacts.

(** ** The adapter's methods *)

Section AdapterFacts.

Context {St Stream : Type} {P : Provider St Stream}.

Variable _parent : string -> string.

#[local] Abbreviation M := (@M St Stream).

Lemma call_run {A} (c : Call Stream) (prim : St -> Res A * St) (w : World) :
  call c prim w
  = (fst (prim (pstate w)), mkWorld (snd (prim (pstate w))) (calls w ++ [c])).
Proof. unfold call. destruct (prim (pstate w)). reflexivity. Qed.

Lemma wrap_exceptions_run {A} (func : M A) (w : World) :
  wrap_exceptions func w = (normalize_res (fst (func w)), snd (func w)).
Proof.
  destruct (func w) as [[a|e] w'] eqn:E; cbn.
  - apply wrap_exceptions_ok, E.
  - apply wrap_exceptions_raise, E.
Qed.

Lemma info_run (path : string) (w : World) :
  info path w =
  let sel := Paths [_strip_protocol path] in
  let w1 := mkWorld (snd (fs_get_file_info sel (pstate w))) (calls w ++ [GetFileInfo sel]) in
  match fst (fs_get_file_info sel (pstate w)) with
  | Ok [fi] => (_make_entry fi, w1)
  | Ok [] =>
      (Raise (mkExn ValueError [PStr "not enough values to unpack (expected 1, got 0)"]
                    None None), w1)
  | Ok (_ :: _ :: _) =>
      (Raise (mkExn ValueError [PStr "too many values to unpack (expected 1)"] None None), w1)
  | Raise e => (Raise e, w1)
  end.
Proof.
  unfold info, bind. rewrite call_run. cbn zeta.
  destruct (fs_get_file_info (Paths [_strip_protocol path]) (pstate w)) as [[l|e] s]; cbn.
  - destruct l as [|fi [|fi' l]]; reflexivity.
  - reflexivity.
Qed.

(** C3, as stated, fails on a doubly prefixed path: [exists] normalizes
    the path and then calls [info], which normalizes once more, so it
    asks about "c" where [info] asks about "b://c". *)
Lemma exists_double_prefix_counterexample :
  fst (info "a://b://c" MemFS.world0)
    = Raise (mkExn FileNotFoundError [PInt ENOENT; PStr strerror_ENOENT]
                   (Some "b://c") None) /\
  fst (exists_ "a://b://c" MemFS.world0) = Ok true.
Proof. split; reflexivity. Qed.

(** C3, amended: [exists_ path] is decided by [info] at the normalized
    path: true when that call succeeds, false when it fails with
    FileNotFoundError, and any other failure propagates; the call is
    [info path] itself whenever the normalized path holds no further
    marker. *)
Theorem exists_by_info (path : string) (w : World) :
  (forall entry w', info (_strip_protocol path) w = (Ok entry, w') ->
     exists_ path w = (Ok true, w')) /\
  (forall e w', info (_strip_protocol path) w = (Raise e, w') ->
     isinstance e FileNotFoundError = true ->
     exists_ path w = (Ok false, w')) /\
  (forall e w', info (_strip_protocol path) w = (Raise e, w') ->
     isinstance e FileNotFoundError = false ->
     exists_ path w = (Raise e, w')) /\
  (PyStr.contains "://" (_strip_protocol path) = false ->
     info (_strip_protocol path) = info path).
Proof.
  unfold exists_. repeat split.
  - intros entry w' ->. reflexivity.
  - intros e w' -> ->. reflexivity.
  - intros e w' -> ->. reflexivity.
  - intros Hnone. unfold info. rewrite (strip_without_marker _ Hnone). reflexivity.
Qed.

Lemma _open_bad_mode (path mode : string) (block_size : option Z) (w : World) :
  mode <> "rb" -> mode <> "wb" ->
  _open path mode block_size w
  = (Raise (mkExn ValueError
              [PStr ("unsupported mode for Arrow filesystem: " ++ PyStr.repr mode)]
              None None), w).
Proof.
  intros Hrb Hwb. apply String.eqb_neq in Hrb, Hwb.
  unfold _open. rewrite wrap_exceptions_run. unfold bind.
  rewrite Hrb, Hwb. reflexivity.
Qed.

Lemma _open_rb_run (path : string) (block_size : option Z) (w : World) :
  _open path "rb" block_size w
  = (match fst (fs_open_input_stream path (pstate w)) with
     | Ok stream => Ok (mkArrowFile stream path "rb" block_size)
     | Raise e => Raise (normalize e)
     end,
     mkWorld (snd (fs_open_input_stream path (pstate w)))
             (calls w ++ [OpenInputStream path])).
Proof.
  unfold _open. rewrite wrap_exceptions_run. unfold bind.
  change ("rb" =? "rb") with true. cbn iota. rewrite call_run.
  destruct (fs_open_input_stream path (pstate w)) as [[stream|e] s]; reflexivity.
Qed.

Lemma _open_wb_run (path : string) (block_size : option Z) (w : World) :
  _open path "wb" block_size w
  = (match fst (fs_open_output_stream path (pstate w)) with
     | Ok stream => Ok (mkArrowFile stream path "wb" block_size)
     | Raise e => Raise (normalize e)
     end,
     mkWorld (snd (fs_open_output_stream path (pstate w)))
             (calls w ++ [OpenOutputStream path])).
Proof.
  unfold _open. rewrite wrap_exceptions_run. unfold bind.
  change ("wb" =? "rb") with false. change ("wb" =? "wb") with true.
  cbn iota. rewrite call_run.
  destruct (fs_open_output_stream path (pstate w)) as [[stream|e] s]; reflexivity.
Qed.

(** C8: [_open] with a mode other than "rb" and "wb" raises ValueError
    and leaves the world as it was, with no provider call made; with "rb"
    it opens the provider's input stream and with "wb" its output stream,
    and returns the stream wrapped in an [ArrowFile] that records path,
    mode and block size. *)
Theorem open_mode_checked (path mode : string) (block_size : option Z) (w : World) :
  (mode <> "rb" -> mode <> "wb" ->
     exists e, _open path mode block_size w = (Raise e, w) /\
               exn_cls e = ValueError) /\
  _open path "rb" block_size w
    = (match fst (fs_open_input_stream path (pstate w)) with
       | Ok stream => Ok (mkArrowFile stream path "rb" block_size)
       | Raise e => Raise (normalize e)
       end,
       mkWorld (snd (fs_open_input_stream path (pstate w)))
               (calls w ++ [OpenInputStream path])) /\
  _open path "wb" block_size w
    = (match fst (fs_open_output_stream path (pstate w)) with
       | Ok stream => Ok (mkArrowFile stream path "wb" block_size)
       | Raise e => Raise (normalize e)
       end,
       mkWorld (snd (fs_open_output_stream path (pstate w)))
               (calls w ++ [OpenOutputStream path])).
Proof.
  split; [|split].
  - intros Hrb Hwb. rewrite (_open_bad_mode path mode block_size w Hrb Hwb).
    eexists. split; reflexivity.
  - apply _open_rb_run.
  - apply _open_wb_run.
Qed.



Lemma ls_raise (path : string) (detail : bool) (w : World) (e : exn) (s : St) :
  fs_get_file_info (FileSelector path) (pstate w) = (Raise e, s) ->
  ls path detail w = (Raise e, mkWorld s (calls w ++ [GetFileInfo (FileSelector path)])).
Proof. intros H. unfold ls, bind. rewrite call_run, H. reflexivity. Qed.

Lemma settled_wrap {A} (func : M A) (w : World) : settled (wrap_exceptions func w).
Proof.
  unfold settled. rewrite wrap_exceptions_run. cbn [fst].
  destruct (fst (func w)); cbn; [exact I|apply normalize_idempotent].
Qed.

Lemma isdir_run (path : string) (w : World) (fi : FileInfo) (s1 : St) :
  fs_get_file_info (Paths [_strip_protocol path]) (pstate w) = (Ok [fi], s1) ->
  isdir path w
  = (Ok (match fi_type fi with Directory => true | _ => false end),
     mkWorld s1 (calls w ++ [GetFileInfo (Paths [_strip_protocol path])])).
Proof.
  intros Hlook. unfold isdir, try_except, bind. rewrite info_run. cbv zeta. rewrite Hlook.
  cbn. unfold _make_entry. destruct (fi_type fi); reflexivity.
Qed.

(** C7, as stated, fails where normalizing the target once more changes
    it, and for the root.  The directory "b://c" is what "a://b://c"
    names, and [info] says so, but [rm] hands "b://c" to [isdir], which
    looks up "c", finds nothing and answers no: [rm] without [recursive]
    then calls [delete_file] on the directory and raises no ValueError.
    For "/" the target is the empty string. *)
Lemma rm_directory_counterexample :
  fst (info "a://b://c" MemFS.world_marked)
    = Ok (mkEntry "b://c" None "directory" None) /\
  rm "a://b://c" false None MemFS.world_marked
    = (Raise (MemFS.os_error "Is a directory: b://c"),
       mkWorld MemFS.tree_marked [GetFileInfo (Paths ["c"]); DeleteFile "b://c"]) /\
  fst (info "/" MemFS.world_marked) = Ok (mkEntry "/" None "directory" None) /\
  rm "/" false None MemFS.world_marked
    = (Raise (not_found_from "Path  does not exist" (MemFS.missing "")),
       mkWorld MemFS.tree_marked [GetFileInfo (Paths [""]); DeleteFile ""]).
Proof. repeat split. Qed.

(** C7, amended: when the lookup [rm] makes, that of its target
    normalized once more, the target being the normalized path without
    its trailing slashes, reports a directory, [rm] without [recursive]
    raises ValueError having made no call but that lookup, and with
    [recursive] it calls the provider's [delete_dir] on the target; when
    the lookup reports a file, [rm] calls [delete_file] on the target
    whatever [recursive] is; [maxdepth] changes nothing. *)
Theorem rm_by_kind (path : string) (w : World) (fi : FileInfo) (s1 : St) :
  let target := PyStr.rstrip "/" (_strip_protocol path) in
  let lookup := Paths [_strip_protocol target] in
  let w1 := mkWorld s1 (calls w ++ [GetFileInfo lookup]) in
  fs_get_file_info lookup (pstate w) = (Ok [fi], s1) ->
  (fi_type fi = Directory ->
     (forall maxdepth,
        exists e, rm path false maxdepth w = (Raise e, w1) /\
                  exn_cls e = ValueError) /\
     (forall maxdepth,
        rm path true maxdepth w
        = (normalize_res (fst (fs_delete_dir target s1)),
           mkWorld (snd (fs_delete_dir target s1))
                   (calls w1 ++ [DeleteDir target])))) /\
  (fi_type fi = File ->
     forall recursive maxdepth,
       rm path recursive maxdepth w
       = (normalize_res (fst (fs_delete_file target s1)),
          mkWorld (snd (fs_delete_file target s1))
                  (calls w1 ++ [DeleteFile target]))) /\
  (forall recursive maxdepth maxdepth',
     rm path recursive maxdepth w = rm path recursive maxdepth' w).
Proof.
  intros target lookup w1 Hlook.
  assert (Hrm : forall recursive maxdepth,
            rm path recursive maxdepth w
            = wrap_exceptions
                (if match fi_type fi with Directory => true | _ => false end
                 then if recursive
                      then call (DeleteDir target) (fs_delete_dir target)
                      else raise (mkExn ValueError
                                    [PStr "Can't delete directories without recursive=False"]
                                    None None)
                 else call (DeleteFile target) (fs_delete_file target)) w1).
  { intros recursive maxdepth. unfold rm. rewrite !wrap_exceptions_run.
    unfold bind. fold target. rewrite (isdir_run target w fi s1 Hlook).
    reflexivity. }
  split; [intros Hdir; split; intros maxdepth|split].
  - rewrite Hrm, Hdir, wrap_exceptions_run. cbn. eexists. split; reflexivity.
  - rewrite Hrm, Hdir, wrap_exceptions_run, call_run. reflexivity.
  - intros Hfile recursive maxdepth.
    rewrite Hrm, Hfile, wrap_exceptions_run, call_run. reflexivity.
  - intros recursive maxdepth maxdepth'. rewrite !Hrm. reflexivity.
Qed.

Lemma normalize_res_idempotent {A} (r : Res A) :
  normalize_res (normalize_res r) = normalize_res r.
Proof. destruct r; cbn; [reflexivity|]. rewrite normalize_idempotent. reflexivity. Qed.

(** A decorated method that makes one provider call. *)
Lemma wrap_call_run {A} (c : Call Stream) (prim : St -> Res A * St) (w : World) :
  wrap_exceptions (call c prim) w
  = (normalize_res (fst (prim (pstate w))),
     mkWorld (snd (prim (pstate w))) (calls w ++ [c])).
Proof. rewrite wrap_exceptions_run, call_run. reflexivity. Qed.

(** *** The atomic-copy protocol *)


(** Writing the temporary file, call by call. *)
Lemma cp_file_copy_run (lstream : ArrowFile) (tmp : string) (w1 : World) :
  cp_file_copy lstream tmp w1
  = let t := _strip_protocol tmp in
    match fs_open_output_stream t (pstate w1) with
    | (Raise e, s) => (Raise (normalize e), mkWorld s (calls w1 ++ [OpenOutputStream t]))
    | (Ok rs, s) =>
        let copied := fs_copyfileobj (af_stream lstream) rs s in
        let closed := fs_stream_close rs (snd copied) in
        (match fst closed with
         | Raise c => Raise c
         | Ok _ =>
             match fst copied with
             | Ok _ => Ok (mkArrowFile rs t "wb" None)
             | Raise e => Raise e
             end
         end,
         mkWorld (snd closed)
                 (calls w1 ++ [OpenOutputStream t;
                               CopyFileObj (af_stream lstream) rs; Close rs]))
    end.
Proof.
  cbv zeta. unfold cp_file_copy, with_, open. rewrite _open_wb_run.
  destruct (fs_open_output_stream (_strip_protocol tmp) (pstate w1)) as [[rs|e] s];
    cbn [fst snd af_stream]; [|reflexivity].
  unfold bind. rewrite call_run. cbn [fst snd pstate calls af_stream].
  unfold af_close, ret.
  destruct (fs_copyfileobj (af_stream lstream) rs s) as [[[]|e] s'];
    cbn [fst snd]; rewrite call_run; cbn [fst snd pstate calls af_stream];
    destruct (fs_stream_close rs s') as [[[]|e'] s''];
    cbn [fst snd]; rewrite <- !app_assoc; reflexivity.
Qed.


Lemma cp_file_try_run (lstream : ArrowFile) (tmp dst : string) (w1 : World) :
  cp_file_try lstream tmp dst w1
  = match cp_file_copy lstream tmp w1 with
    | (Ok rstream, wc) =>
        (match fst (fs_move tmp dst (pstate wc)) with
         | Ok _ => Ok rstream
         | Raise e => Raise e
         end,
         mkWorld (snd (fs_move tmp dst (pstate wc))) (calls wc ++ [Move tmp dst]))
    | (Raise e, wc) => (Raise e, wc)
    end.
Proof.
  unfold cp_file_try. unfold bind at 1.
  destruct (cp_file_copy lstream tmp w1) as [[rstream|e] wc]; [|reflexivity].
  unfold bind. rewrite call_run.
  destruct (fst (fs_move tmp dst (pstate wc))) as [[]|e]; reflexivity.
Qed.

Lemma cp_file_guarded_run (lstream : ArrowFile) (tmp dst : string)
    (w1 w2 : World) (e : exn) :
  cp_file_try lstream tmp dst w1 = (Raise e, w2) ->
  cp_file_guarded lstream tmp dst w1
  = (Raise (match fst (fs_delete_file tmp (pstate w2)) with
            | Ok _ => e
            | Raise d => if isinstance d FileNotFoundError then e else d
            end),
     mkWorld (snd (fs_delete_file tmp (pstate w2))) (calls w2 ++ [DeleteFile tmp])).
Proof.
  intros Htry. unfold cp_file_guarded, try_except. rewrite Htry.
  replace (isinstance e BaseException) with true by (destruct e as [[] ? ? ?]; reflexivity).
  unfold bind, suppress, try_except. rewrite call_run.
  destruct (fs_delete_file tmp (pstate w2)) as [[[]|d] s3]; cbn [fst snd];
    [reflexivity|].
  destruct (isinstance d FileNotFoundError); reflexivity.
Qed.

(** What [cp_file] does once the guarded block has failed: it closes the
    source and the failure leaves through the wrapper; nothing is
    finalized. *)
Lemma cp_file_after_failure (path1 path2 token : string) (w w1 w3 : World)
    (lstream : ArrowFile) (e : exn) :
  let src := PyStr.rstrip "/" (_strip_protocol path1) in
  let dst := PyStr.rstrip "/" (_strip_protocol path2) in
  let tmp := tmp_fname _parent dst token in
  _open src "rb" None w = (Ok lstream, w1) ->
  cp_file_guarded lstream tmp dst w1 = (Raise e, w3) ->
  cp_file _parent path1 path2 token w
  = (Raise (normalize match fst (fs_stream_close (af_stream lstream) (pstate w3)) with
                      | Ok _ => e
                      | Raise c => c
                      end),
     mkWorld (snd (fs_stream_close (af_stream lstream) (pstate w3)))
             (calls w3 ++ [Close (af_stream lstream)])).
Proof.
  intros src dst tmp Hopen Hguard. unfold cp_file. fold src. fold dst. fold tmp.
  apply wrap_exceptions_raise.
  unfold bind at 1. unfold with_. rewrite Hopen.
  unfold bind at 1. rewrite Hguard. unfold af_close. rewrite call_run.
  destruct (fs_stream_close (af_stream lstream) (pstate w3)) as [[[]|c] s4]; reflexivity.
Qed.

(** What [cp_file] does once the guarded block has gone through: it
    closes the source and, unless that close fails, returns, and the two
    files released on return are finalized. *)
Lemma cp_file_after_success (path1 path2 token : string) (w w1 w2 : World)
    (lstream rstream : ArrowFile) :
  let src := PyStr.rstrip "/" (_strip_protocol path1) in
  let dst := PyStr.rstrip "/" (_strip_protocol path2) in
  let tmp := tmp_fname _parent dst token in
  _open src "rb" None w = (Ok lstream, w1) ->
  cp_file_guarded lstream tmp dst w1 = (Ok rstream, w2) ->
  cp_file _parent path1 path2 token w
  = let l := af_stream lstream in
    let r := af_stream rstream in
    let closed := fs_stream_close l (pstate w2) in
    match fst closed with
    | Raise c => (Raise (normalize c), mkWorld (snd closed) (calls w2 ++ [Close l]))
    | Ok _ =>
        let again := fs_stream_close l (snd closed) in
        (Ok tt, mkWorld (snd (fs_stream_close r (snd again)))
                        (calls w2 ++ [Close l; Close l; Close r]))
    end.
Proof.
  intros src dst tmp Hopen Hguard. cbv zeta.
  unfold cp_file. fold src. fold dst. fold tmp.
  destruct (fs_stream_close (af_stream lstream) (pstate w2)) as [[[]|c] s3] eqn:Hclose;
    cbn [fst snd].
  - apply wrap_exceptions_ok.
    unfold bind at 1. unfold with_. rewrite Hopen.
    unfold bind at 1. rewrite Hguard. unfold ret, af_close. rewrite call_run, Hclose.
    cbn [fst snd]. unfold bind, af_finalize, af_close. rewrite !call_run.
    cbn [fst snd pstate calls]. rewrite <- !app_assoc. reflexivity.
  - apply wrap_exceptions_raise.
    unfold bind at 1. unfold with_. rewrite Hopen.
    unfold bind at 1. rewrite Hguard. unfold ret, af_close. rewrite call_run, Hclose.
    reflexivity.
Qed.

Lemma cp_file_guarded_ok (lstream rstream : ArrowFile) (tmp dst : string)
    (w1 w2 : World) :
  cp_file_try lstream tmp dst w1 = (Ok rstream, w2) ->
  cp_file_guarded lstream tmp dst w1 = (Ok rstream, w2).
Proof. intros H. unfold cp_file_guarded, try_except. rewrite H. reflexivity. Qed.

(** What the guarded block calls, by the step that failed. *)
Lemma cp_file_guarded_shape (lstream : ArrowFile) (tmp dst : string) (w1 : World) :
  let out := cp_file_guarded lstream tmp dst w1 in
  let t := _strip_protocol tmp in
  let l := af_stream lstream in
  ((exists e, fst out = Raise e) /\
   calls (snd out) = (calls w1 ++ [OpenOutputStream t; DeleteFile tmp])%list) \/
  exists r,
    ((exists e, fst out = Raise e) /\
     calls (snd out)
     = (calls w1 ++ [OpenOutputStream t; CopyFileObj l r; Close r;
                     DeleteFile tmp])%list) \/
    ((exists e, fst out = Raise e) /\
     calls (snd out)
     = (calls w1 ++ [OpenOutputStream t; CopyFileObj l r; Close r;
                     Move tmp dst; DeleteFile tmp])%list) \/
    ((exists rstream, fst out = Ok rstream /\ af_stream rstream = r) /\
     calls (snd out)
     = (calls w1 ++ [OpenOutputStream t; CopyFileObj l r; Close r;
                     Move tmp dst])%list).
Proof.
  cbv zeta.
  pose proof (cp_file_try_run lstream tmp dst w1) as Hrun.
  rewrite cp_file_copy_run in Hrun. cbv zeta in Hrun.
  destruct (cp_file_try lstream tmp dst w1) as [[rstream|e] w2] eqn:Htry;
    [rewrite (cp_file_guarded_ok _ _ _ _ _ _ Htry)
    |rewrite (cp_file_guarded_run _ _ _ _ _ _ Htry)];
    cbn [fst snd calls];
    (destruct (fs_open_output_stream (_strip_protocol tmp) (pstate w1)) as [[rs|e0] s];
     [destruct (fs_copyfileobj (af_stream lstream) rs s) as [[[]|ec] s'];
      cbn [fst snd] in Hrun;
      destruct (fs_stream_close rs s') as [[[]|ecl] s''];
      cbn [fst snd pstate calls] in Hrun;
      try (destruct (fs_move tmp dst s'') as [[[]|em] sm]; cbn [fst snd] in Hrun)
     |]);
    inversion Hrun; subst; cbn [calls]; rewrite <- ?app_assoc; cbn [app];
    first [ left; split; [eexists; reflexivity|reflexivity]
          | right; exists rs;
            first [ left; split; [eexists; reflexivity|reflexivity]
                  | right; left; split; [eexists; reflexivity|reflexivity]
                  | right; right; split;
                    [eexists; split; reflexivity|reflexivity] ] ].
Qed.



(** *** Which calls carry which path *)



(** An OS error of the lookup is the answer "no" of [isdir]. *)
Lemma isdir_lookup_error (path : string) (w : World) (e : exn) (s : St) :
  fs_get_file_info (Paths [_strip_protocol path]) (pstate w) = (Raise e, s) ->
  isinstance e OSError = true ->
  isdir path w
  = (Ok false, mkWorld s (calls w ++ [GetFileInfo (Paths [_strip_protocol path])])).
Proof.
  intros Hlook Hos. unfold isdir, try_except, bind. rewrite info_run. cbv zeta.
  rewrite Hlook. cbn [fst snd]. rewrite Hos. reflexivity.
Qed.

Lemma rm_run (path : string) (recursive : bool) (maxdepth : option Z) (w : World) :
  let target := PyStr.rstrip "/" (_strip_protocol path) in
  rm path recursive maxdepth w
  = match isdir target w with
    | (Ok true, w1) =>
        if recursive
        then (normalize_res (fst (fs_delete_dir target (pstate w1))),
              mkWorld (snd (fs_delete_dir target (pstate w1)))
                      (calls w1 ++ [DeleteDir target]))
        else (Raise (mkExn ValueError
                       [PStr "Can't delete directories without recursive=False"]
                       None None), w1)
    | (Ok false, w1) =>
        (normalize_res (fst (fs_delete_file target (pstate w1))),
         mkWorld (snd (fs_delete_file target (pstate w1)))
                 (calls w1 ++ [DeleteFile target]))
    | (Raise e, w1) => (Raise (normalize e), w1)
    end.
Proof.
  intros target. unfold rm. fold target. rewrite wrap_exceptions_run. unfold bind.
  destruct (isdir target w) as [[[|]|e] w1]; cbn [fst snd normalize_res];
    [destruct recursive; [rewrite call_run|]|rewrite call_run|]; reflexivity.
Qed.




(** C2, as stated, fails for [ls]: the provider's "does not exist" error
    leaves [ls] as the plain OS error it was, although the wrapper would
    reclassify it, and does so for [rm_file]. *)
Lemma ls_not_wrapped_counterexample :
  fst (ls "/missing" false MemFS.world0) = Raise (MemFS.missing "/missing") /\
  exn_cls (MemFS.missing "/missing") = OSError /\
  reclassifiable (MemFS.missing "/missing") = Some "Path /missing does not exist" /\
  fst (rm_file "/missing" MemFS.world0)
    = Raise (not_found_from "Path /missing does not exist" (MemFS.missing "/missing")).
Proof. repeat split. Qed.

(** C2, amended: the eight decorated methods, [cp_file], [mv], [rm_file],
    [rm], [_open], [mkdir], [makedirs] and [rmdir], run their whole body
    inside [wrap_exceptions].  None of them lets out an error the wrapper
    would still reclassify, and an OS error whose message contains "does
    not exist" that leaves the body comes out as the FileNotFoundError
    built from it.  For [mv], [rm_file], [rmdir], [makedirs], [mkdir] and
    [_open] the body is one provider call, whose failure always leaves it.
    In [rm] the failure of the delete leaves the body, while an OS error of
    the lookup is absorbed by [isdir], after which [rm] calls
    [delete_file].  In [cp_file] what leaves the body is the failure of
    the source open, or the failure the guarded block ends with, or the
    failure of the close of the source.  [ls], [info] and [exists] are not
    decorated: an error of the provider's lookup leaves [ls] and [info] as
    it is, and [exists] too unless it is a FileNotFoundError, which
    [exists] answers with false. *)
Theorem decorated_operations_reclassify (w : World) :
  (forall e text,
     reclassifiable e = Some text -> normalize e = not_found_from text e) /\
  ((forall path1 path2 token, settled (cp_file _parent path1 path2 token w)) /\
   (forall path1 path2, settled (mv path1 path2 w)) /\
   (forall path, settled (rm_file path w)) /\
   (forall path recursive maxdepth, settled (rm path recursive maxdepth w)) /\
   (forall path mode block_size, settled (_open path mode block_size w)) /\
   (forall path create_parents, settled (mkdir path create_parents w)) /\
   (forall path exist_ok, settled (makedirs path exist_ok w)) /\
   (forall path, settled (rmdir path w))) /\
  ((forall path1 path2,
      let src := PyStr.rstrip "/" (_strip_protocol path1) in
      let dst := PyStr.rstrip "/" (_strip_protocol path2) in
      mv path1 path2 w
      = (normalize_res (fst (fs_move src dst (pstate w))),
         mkWorld (snd (fs_move src dst (pstate w))) (calls w ++ [Move src dst]))) /\
   (forall path,
      let target := _strip_protocol path in
      rm_file path w
      = (normalize_res (fst (fs_delete_file target (pstate w))),
         mkWorld (snd (fs_delete_file target (pstate w)))
                 (calls w ++ [DeleteFile target]))) /\
   (forall path,
      let target := _strip_protocol path in
      rmdir path w
      = (normalize_res (fst (fs_delete_dir target (pstate w))),
         mkWorld (snd (fs_delete_dir target (pstate w)))
                 (calls w ++ [DeleteDir target]))) /\
   (forall path exist_ok,
      let target := _strip_protocol path in
      makedirs path exist_ok w
      = (normalize_res (fst (fs_create_dir target true (pstate w))),
         mkWorld (snd (fs_create_dir target true (pstate w)))
                 (calls w ++ [CreateDir target true]))) /\
   (forall path,
      let target := _strip_protocol path in
      mkdir path false w
      = (normalize_res (fst (fs_create_dir target false (pstate w))),
         mkWorld (snd (fs_create_dir target false (pstate w)))
                 (calls w ++ [CreateDir target false]))) /\
   (forall path,
      let target := _strip_protocol (_strip_protocol path) in
      mkdir path true w
      = (normalize_res (fst (fs_create_dir target true (pstate w))),
         mkWorld (snd (fs_create_dir target true (pstate w)))
                 (calls w ++ [CreateDir target true])))) /\
  ((forall path detail e s,
      fs_get_file_info (FileSelector path) (pstate w) = (Raise e, s) ->
      ls path detail w
      = (Raise e, mkWorld s (calls w ++ [GetFileInfo (FileSelector path)]))) /\
   (forall path e s,
      fs_get_file_info (Paths [_strip_protocol path]) (pstate w) = (Raise e, s) ->
      info path w
      = (Raise e, mkWorld s (calls w ++ [GetFileInfo (Paths [_strip_protocol path])])))) /\
  ((forall path block_size e s,
      fs_open_input_stream path (pstate w) = (Raise e, s) ->
      _open path "rb" block_size w
      = (Raise (normalize e), mkWorld s (calls w ++ [OpenInputStream path]))) /\
   (forall path block_size e s,
      fs_open_output_stream path (pstate w) = (Raise e, s) ->
      _open path "wb" block_size w
      = (Raise (normalize e), mkWorld s (calls w ++ [OpenOutputStream path])))) /\
  ((forall path recursive maxdepth,
      let target := PyStr.rstrip "/" (_strip_protocol path) in
      rm path recursive maxdepth w
      = match isdir target w with
        | (Ok true, w1) =>
            if recursive
            then (normalize_res (fst (fs_delete_dir target (pstate w1))),
                  mkWorld (snd (fs_delete_dir target (pstate w1)))
                          (calls w1 ++ [DeleteDir target]))
            else (Raise (mkExn ValueError
                           [PStr "Can't delete directories without recursive=False"]
                           None None), w1)
        | (Ok false, w1) =>
            (normalize_res (fst (fs_delete_file target (pstate w1))),
             mkWorld (snd (fs_delete_file target (pstate w1)))
                     (calls w1 ++ [DeleteFile target]))
        | (Raise e, w1) => (Raise (normalize e), w1)
        end) /\
   (forall path e s,
      fs_get_file_info (Paths [_strip_protocol path]) (pstate w) = (Raise e, s) ->
      isinstance e OSError = true ->
      isdir path w
      = (Ok false,
         mkWorld s (calls w ++ [GetFileInfo (Paths [_strip_protocol path])])))) /\
  (forall path1 path2 token,
     let src := PyStr.rstrip "/" (_strip_protocol path1) in
     let dst := PyStr.rstrip "/" (_strip_protocol path2) in
     let tmp := tmp_fname _parent dst token in
     (forall e s,
        fs_open_input_stream src (pstate w) = (Raise e, s) ->
        cp_file _parent path1 path2 token w
        = (Raise (normalize e), mkWorld s (calls w ++ [OpenInputStream src]))) /\
     (forall lstream w1 e w3,
        _open src "rb" None w = (Ok lstream, w1) ->
        cp_file_guarded lstream tmp dst w1 = (Raise e, w3) ->
        cp_file _parent path1 path2 token w
        = (Raise (normalize
                    match fst (fs_stream_close (af_stream lstream) (pstate w3)) with
                    | Ok _ => e
                    | Raise c => c
                    end),
           mkWorld (snd (fs_stream_close (af_stream lstream) (pstate w3)))
                   (calls w3 ++ [Close (af_stream lstream)]))) /\
     (forall lstream w1 rstream w2 c s,
        _open src "rb" None w = (Ok lstream, w1) ->
        cp_file_guarded lstream tmp dst w1 = (Ok rstream, w2) ->
        fs_stream_close (af_stream lstream) (pstate w2) = (Raise c, s) ->
        cp_file _parent path1 path2 token w
        = (Raise (normalize c),
           mkWorld s (calls w2 ++ [Close (af_stream lstream)])))) /\
  (forall path e s,
     fs_get_file_info (Paths [_strip_protocol (_strip_protocol path)]) (pstate w)
       = (Raise e, s) ->
     exists_ path w
     = (if isinstance e FileNotFoundError then Ok false else Raise e,
        mkWorld s (calls w ++
                   [GetFileInfo (Paths [_strip_protocol (_strip_protocol path)])]))).
Proof.
  split; [exact normalize_reclassifiable|].
  split; [repeat split; intros; apply settled_wrap|].
  split.
  { repeat split; intros; cbv zeta.
    + unfold mv. apply wrap_call_run.
    + unfold rm_file. apply wrap_call_run.
    + unfold rmdir. apply wrap_call_run.
    + unfold makedirs. apply wrap_call_run.
    + unfold mkdir. apply wrap_call_run.
    + unfold mkdir, makedirs. rewrite wrap_exceptions_run, wrap_call_run.
      cbn [fst snd]. rewrite normalize_res_idempotent. reflexivity. }
  split.
  { split.
    + intros path detail e s H. apply ls_raise, H.
    + intros path e s H. rewrite info_run. cbv zeta. rewrite H. reflexivity. }
  split.
  { split; intros path block_size e s H.
    + rewrite _open_rb_run, H. reflexivity.
    + rewrite _open_wb_run, H. reflexivity. }
  split.
  { split.
    + intros path recursive maxdepth. apply rm_run.
    + intros path e s Hlook Hos. exact (isdir_lookup_error path w e s Hlook Hos). }
  split.
  { intros path1 path2 token src dst tmp. split; [|split].
    + intros e s Hprim. unfold cp_file. fold src.
      rewrite <- (normalize_idempotent e). apply wrap_exceptions_raise.
      unfold bind at 1. unfold with_. rewrite _open_rb_run, Hprim. reflexivity.
    + intros lstream w1 e w3 Hopen Hguard.
      apply (cp_file_after_failure path1 path2 token w w1 w3 lstream e Hopen Hguard).
    + intros lstream w1 rstream w2 c s Hopen Hguard Hclose.
      rewrite (cp_file_after_success path1 path2 token w w1 w2 lstream rstream
                 Hopen Hguard).
      cbv zeta. rewrite Hclose. reflexivity. }
  intros path e s Hlook. unfold exists_. rewrite info_run. cbv zeta.
  rewrite Hlook. cbn [fst snd]. destruct (isinstance e FileNotFoundError); reflexivity.
Qed.


End AdapterFacts.

(** ** The theorems at work on the provider in memory *)


Lemma decorated_operations_reclassify_witness :
  fst (rm_file "/missing" MemFS.world0)
    = Raise (not_found_from "Path /missing does not exist" (MemFS.missing "/missing")).
Proof.
  destruct (decorated_operations_reclassify MemFS.parent MemFS.world0)
    as (Hnf & _ & (_ & Hrm & _) & _).
  rewrite Hrm. cbv zeta. cbn [fst].
  change (fst (fs_delete_file (_strip_protocol "/missing") (pstate MemFS.world0)))
    with (@Raise unit (MemFS.missing "/missing")).
  cbn [normalize_res]. rewrite (Hnf _ "Path /missing does not exist"); reflexivity.
Defined.

Lemma exists_by_info_witness :
  fst (exists_ "/d/f" MemFS.world0) = Ok true /\
  fst (exists_ "/nowhere" MemFS.world0) = Ok false.
Proof.
  split.
  - destruct (exists_by_info "/d/f" MemFS.world0) as (Hok & _).
    erewrite Hok; [reflexivity|]. vm_compute. reflexivity.
  - destruct (exists_by_info "/nowhere" MemFS.world0) as (_ & Hmissing & _).
    erewrite Hmissing; [reflexivity| |]; vm_compute; reflexivity.
Defined.


Lemma wrap_exceptions_first_argument_only_witness :
  wrap_exceptions
    (raise (A := unit)
       (mkExn OSError [PInt 5; PStr "Input/output error: /x does not exist"] None None))
    MemFS.world0
  = (Raise (mkExn OSError [PInt 5; PStr "Input/output error: /x does not exist"] None None),
     MemFS.world0).
Proof.
  apply (wrap_exceptions_first_argument_only _ MemFS.world0 MemFS.world0 _
           (PInt 5) [PStr "Input/output error: /x does not exist"]);
    try reflexivity.
  intros text; discriminate.
Defined.

Lemma rm_by_kind_witness :
  (exists e, rm "/d/" false None MemFS.world0
             = (Raise e, mkWorld MemFS.tree [GetFileInfo (Paths ["/d"])]) /\
             exn_cls e = ValueError) /\
  MemFS.lookup "/d/f" (MemFS.nodes (pstate (snd (rm "/d/" true None MemFS.world0)))) = None /\
  MemFS.lookup "/d/f" (MemFS.nodes (pstate (snd (rm "/d/f" false None MemFS.world0)))) = None.
Proof.
  pose proof (rm_by_kind "/d/" MemFS.world0
                (mkFileInfo "/d" Directory None None) MemFS.tree) as Hdir.
  pose proof (rm_by_kind "/d/f" MemFS.world0
                (mkFileInfo "/d/f" File (Some 5%Z) None) MemFS.tree) as Hfile.
  cbv zeta in Hdir, Hfile.
  destruct Hdir as (Hdir & _); [vm_compute; reflexivity|].
  destruct (Hdir eq_refl) as (Hplain & Hrec).
  destruct Hfile as (_ & Hfile & _); [vm_compute; reflexivity|].
  split; [exact (Hplain None)|]. split.
  - rewrite (Hrec None). reflexivity.
  - rewrite (Hfile eq_refl false None). reflexivity.
Defined.

Lemma open_mode_checked_witness :
  exists e, _open "/d/f" "rb+" None MemFS.world0 = (Raise e, MemFS.world0) /\
            exn_cls e = ValueError.
Proof.
  destruct (open_mode_checked "/d/f" "rb+" None MemFS.world0) as (Hbad & _).
  apply Hbad; discriminate.
Defined.


(** ** Further properties of the path normalizer *)

(** X1: putting a scheme in front of a path and normalizing gives the
    path back, whatever the path is, as long as the scheme itself holds no
    marker. *)
Theorem strip_protocol_after_scheme (scheme rest : string) :
  PyStr.contains "://" scheme = false ->
  _strip_protocol (scheme ++ "://" ++ rest) = rest.
Proof.
  intros Hnone. unfold _strip_protocol, stringify_path, PyStr.partition.
  rewrite (split_first_after_scheme scheme rest Hnone).
  replace (PyStr.contains "://" (scheme ++ "://" ++ rest)) with true; [reflexivity|].
  symmetry. apply contains_spec. exists scheme, rest. reflexivity.
Qed.

(** X2: the normalized path is always a suffix of the path given, never
    longer than it, and it is the path itself exactly when the path holds
    no marker. *)
Theorem strip_protocol_suffix (p : string) :
  (exists h, p = h ++ _strip_protocol p) /\
  String.length (_strip_protocol p) <= String.length p /\
  (_strip_protocol p = p <-> PyStr.contains "://" p = false).
Proof.
  destruct (PyStr.contains "://" p) eqn:Hp.
  - destruct (strip_with_marker p Hp) as [h Eh].
    pose proof (strip_shorter p Hp) as Hlt. split; [|split].
    + exists (h ++ "://"). rewrite Eh at 1.
      clear. induction h as [|c h IH]; cbn; [reflexivity|]. f_equal. exact IH.
    + lia.
    + split; [intros E; rewrite E in Hlt; lia|discriminate].
  - rewrite (strip_without_marker p Hp). split; [exists ""; reflexivity|].
    split; [lia|]. split; reflexivity.
Qed.

(** ** Further properties of the exception normalizer *)

Section MoreWrapperFacts.

Context {St Stream : Type} {P : Provider St Stream}.

#[local] Abbreviation M := (@M St Stream).

(** X3: decorating twice is decorating once: a method that is decorated
    and calls another decorated method reclassifies an error once. *)
Theorem wrap_exceptions_idempotent {A} (func : M A) (w : World) :
  wrap_exceptions (wrap_exceptions func) w = wrap_exceptions func w.
Proof.
  rewrite (wrap_exceptions_run (wrap_exceptions func)), !wrap_exceptions_run.
  cbn [fst snd]. rewrite normalize_res_idempotent. reflexivity.
Qed.

(** X4: the wrapper raises nothing of its own and drops nothing: it
    returns exactly when the wrapped function does, with the same value and
    world, and a failure that leaves it is the function's failure, either
    as it was or as a FileNotFoundError with code ENOENT chained to it,
    the latter only for an OS error. *)
Theorem wrap_exceptions_inversion {A} (func : M A) (w : World) :
  (forall a w', wrap_exceptions func w = (Ok a, w') <-> func w = (Ok a, w')) /\
  (forall e' w',
     wrap_exceptions func w = (Raise e', w') ->
     exists e,
       func w = (Raise e, w') /\
       (e' = e \/
        (isinstance e OSError = true /\
         exn_cls e' = FileNotFoundError /\
         exn_errno e' = Some (PInt ENOENT) /\
         exn_cause e' = Some e))).
Proof.
  rewrite wrap_exceptions_run. destruct (func w) as [[a|e] w0]; cbn [fst snd normalize_res].
  - split.
    + intros a' w'. split; intros H; exact H.
    + intros e' w' H. discriminate H.
  - split.
    + intros a' w'. split; intros H; discriminate H.
    + intros e' w' H. inversion H; subst e' w'. exists e. split; [reflexivity|].
      unfold normalize, on_oserror.
      destruct (isinstance e OSError) eqn:Os; [|left; reflexivity].
      destruct (exn_args e) as [|[text| |] rest]; try (left; reflexivity).
      destruct (PyStr.contains "does not exist" text); [|left; reflexivity].
      right. repeat split.
Qed.

End MoreWrapperFacts.

(** ** Further properties of the lookups *)

Section LookupFacts.

Context {St Stream : Type} {P : Provider St Stream}.

#[local] Abbreviation M := (@M St Stream).

(** A record with any tag but NotFound translates, keeping its path. *)
Lemma make_entry_found (fi : FileInfo) :
  fi_type fi <> NotFound ->
  exists entry, _make_entry fi = Ok entry /\ e_name entry = fi_path fi.
Proof.
  intros Hfound. unfold _make_entry.
  destruct (fi_type fi); try (eexists; split; reflexivity). congruence.
Qed.

Lemma make_entry_gone (fi : FileInfo) :
  fi_type fi = NotFound ->
  _make_entry fi
  = Raise (mkExn FileNotFoundError [PInt ENOENT; PStr strerror_ENOENT]
                 (Some (fi_path fi)) None).
Proof. intros H. unfold _make_entry. rewrite H. reflexivity. Qed.

Lemma make_entry_inv (fi : FileInfo) (entry : Entry) :
  _make_entry fi = Ok entry ->
  fi_type fi <> NotFound /\
  e_name entry = fi_path fi /\ e_size entry = fi_size fi /\ e_mtime entry = fi_mtime fi.
Proof.
  unfold _make_entry. destruct (fi_type fi); intros [= <-]; repeat split; discriminate.
Qed.

Lemma mapM_cons {A B} (f : A -> M B) (x : A) (l : list A) (w : @World St Stream) :
  mapM f (x :: l) w
  = bind (f x) (fun y => bind (mapM f l) (fun ys => ret (y :: ys))) w.
Proof. reflexivity. Qed.

Lemma mapM_make_entry_found (infos : list FileInfo) (w : @World St Stream) :
  Forall (fun fi => fi_type fi <> NotFound) infos ->
  exists entries,
    mapM (fun fi => lift (_make_entry fi)) infos w = (Ok entries, w) /\
    Forall2 (fun fi entry => _make_entry fi = Ok entry) infos entries /\
    map e_name entries = map fi_path infos.
Proof.
  induction 1 as [|fi infos Hfi _ IH].
  - exists []. repeat split. constructor.
  - destruct IH as (entries & Hrun & Hall & Hnames).
    destruct (make_entry_found fi Hfi) as (entry & Hentry & Hname).
    exists (entry :: entries). split; [|split].
    + rewrite mapM_cons. unfold bind at 1. unfold lift at 1. rewrite Hentry.
      unfold bind. rewrite Hrun. reflexivity.
    + constructor; assumption.
    + cbn. rewrite Hname, Hnames. reflexivity.
Qed.

Lemma mapM_make_entry_gone (pre post : list FileInfo) (gone : FileInfo)
    (w : @World St Stream) :
  Forall (fun fi => fi_type fi <> NotFound) pre ->
  fi_type gone = NotFound ->
  mapM (fun fi => lift (_make_entry fi)) (pre ++ gone :: post) w
  = (Raise (mkExn FileNotFoundError [PInt ENOENT; PStr strerror_ENOENT]
                  (Some (fi_path gone)) None), w).
Proof.
  intros Hpre Hgone. induction Hpre as [|fi pre Hfi _ IH].
  - cbn [app]. rewrite mapM_cons. unfold bind, lift.
    rewrite (make_entry_gone gone Hgone). reflexivity.
  - destruct (make_entry_found fi Hfi) as (entry & Hentry & _).
    change ((fi :: pre) ++ gone :: post)%list with (fi :: (pre ++ gone :: post))%list.
    rewrite mapM_cons. unfold bind at 1. unfold lift at 1. rewrite Hentry.
    unfold bind. rewrite IH. reflexivity.
Qed.

(** X5: when the provider answers the selector with a list of records,
    [ls] returns their paths in the provider's order (with [detail], their
    entries, one per record), having made that one call; if a record is
    tagged NotFound, [ls] returns nothing and raises FileNotFoundError for
    the first such record's path. *)
Theorem ls_in_provider_order (path : string) (w : World)
    (infos : list FileInfo) (s : St) :
  fs_get_file_info (FileSelector path) (pstate w) = (Ok infos, s) ->
  let w1 := mkWorld s (calls w ++ [GetFileInfo (FileSelector path)]) in
  (Forall (fun fi => fi_type fi <> NotFound) infos ->
     ls path false w = (Ok (Names (map fi_path infos)), w1) /\
     exists entries,
       ls path true w = (Ok (Detailed entries), w1) /\
       Forall2 (fun fi entry => _make_entry fi = Ok entry) infos entries) /\
  (forall pre gone post detail,
     infos = (pre ++ gone :: post)%list ->
     Forall (fun fi => fi_type fi <> NotFound) pre ->
     fi_type gone = NotFound ->
     ls path detail w
     = (Raise (mkExn FileNotFoundError [PInt ENOENT; PStr strerror_ENOENT]
                     (Some (fi_path gone)) None), w1)).
Proof.
  intros Hlook w1. split.
  - intros Hall.
    destruct (mapM_make_entry_found infos w1 Hall) as (entries & Hrun & Hentries & Hnames).
    split; [|exists entries; split; [|exact Hentries]];
      unfold ls; unfold bind at 1; rewrite call_run, Hlook; cbn [fst snd]; fold w1;
      unfold bind; rewrite Hrun; cbn; rewrite ?Hnames; reflexivity.
  - intros pre gone post detail -> Hpre Hgone.
    unfold ls. unfold bind at 1. rewrite call_run, Hlook. cbn [fst snd]. fold w1.
    unfold bind. rewrite (mapM_make_entry_gone pre post gone w1 Hpre Hgone). reflexivity.
Qed.

(** X6: [info] returns an entry exactly when the provider answers the
    lookup of the normalized path with a single record that is not tagged
    NotFound; the entry then carries that record's path, size and mtime.
    A single record tagged NotFound makes it raise FileNotFoundError with
    the record's path, and an answer of no record or of several makes it
    raise ValueError. *)
Theorem info_by_lookup (path : string) (w : World) :
  let lookup := Paths [_strip_protocol path] in
  let logged := (calls w ++ [GetFileInfo lookup])%list in
  (forall entry w',
     info path w = (Ok entry, w') <->
     exists fi s,
       fs_get_file_info lookup (pstate w) = (Ok [fi], s) /\
       w' = mkWorld s logged /\
       fi_type fi <> NotFound /\
       _make_entry fi = Ok entry /\
       e_name entry = fi_path fi /\ e_size entry = fi_size fi /\
       e_mtime entry = fi_mtime fi) /\
  (forall fi s,
     fs_get_file_info lookup (pstate w) = (Ok [fi], s) ->
     fi_type fi = NotFound ->
     info path w
     = (Raise (mkExn FileNotFoundError [PInt ENOENT; PStr strerror_ENOENT]
                     (Some (fi_path fi)) None), mkWorld s logged)) /\
  (forall infos s,
     fs_get_file_info lookup (pstate w) = (Ok infos, s) ->
     List.length infos <> 1 ->
     exists e, info path w = (Raise e, mkWorld s logged) /\ exn_cls e = ValueError).
Proof.
  intros lookup logged. rewrite info_run. cbv zeta. fold lookup. fold logged.
  destruct (fs_get_file_info lookup (pstate w)) as [[infos|e] s]; cbn [fst snd].
  - destruct infos as [|fi [|fi' infos]].
    + split; [|split].
      * intros entry w'. split; [discriminate|]. intros (fi & s' & [=] & _).
      * intros fi s' [=].
      * intros infos s' [= <- <-] _. eexists. split; reflexivity.
    + split; [|split].
      * intros entry w'. split.
        -- intros [= Hentry <-]. exists fi, s.
           destruct (make_entry_inv fi entry Hentry) as (Hfound & Hn & Hs & Hm).
           repeat split; assumption.
        -- intros (fi0 & s0 & [= <- <-] & -> & _ & Hentry & _).
           rewrite Hentry. reflexivity.
      * intros fi0 s0 [= <- <-] Hgone. rewrite (make_entry_gone fi Hgone). reflexivity.
      * intros infos s0 [= <- <-] Hlen. cbn in Hlen. congruence.
    + split; [|split].
      * intros entry w'. split; [discriminate|]. intros (fi0 & s' & [=] & _).
      * intros fi0 s' [=].
      * intros infos0 s' [= <- <-] _. eexists. split; reflexivity.
  - split; [|split].
    + intros entry w'. split; [discriminate|]. intros (fi & s' & [=] & _).
    + intros fi s' [=].
    + intros infos s' [=].
Qed.

(** X7: [exists] never fails with FileNotFoundError: that failure of the
    lookup is its answer "no". *)
Theorem exists_never_not_found (path : string) (w w' : World) (e : exn) :
  exists_ path w = (Raise e, w') ->
  isinstance e FileNotFoundError = false.
Proof.
  unfold exists_.
  destruct (info (_strip_protocol path) w) as [[entry|e0] w0]; [discriminate|].
  destruct (isinstance e0 FileNotFoundError) eqn:Hnf; [discriminate|].
  intros [= <- _]. exact Hnf.
Qed.

(** X8: when the provider answers with a single record, [exists] is true
    for every tag but NotFound and false for NotFound; the path it looks
    up has been normalized twice. *)
Theorem exists_by_tag (path : string) (w : World) (fi : FileInfo) (s : St) :
  let lookup := Paths [_strip_protocol (_strip_protocol path)] in
  fs_get_file_info lookup (pstate w) = (Ok [fi], s) ->
  exists_ path w
  = (Ok (match fi_type fi with NotFound => false | _ => true end),
     mkWorld s (calls w ++ [GetFileInfo lookup])).
Proof.
  intros lookup Hlook. unfold exists_. rewrite info_run. cbv zeta.
  fold lookup. rewrite Hlook. cbn [fst snd]. unfold _make_entry.
  destruct (fi_type fi); reflexivity.
Qed.

End LookupFacts.

(** ** Further properties of the methods *)

Section MoreAdapterFacts.

Context {St Stream : Type} {P : Provider St Stream}.

Variable _parent : string -> string.

#[local] Abbreviation M := (@M St Stream).

(** X9: the provider calls of [cp_file], in every run, are one of six
    sequences.  The source open alone, when it fails.  Otherwise the
    source open and the temporary open, then by the step that fails: the
    delete of the temporary name; or the copy, the temporary close and the
    delete; or the copy, the close, the move and the delete; each followed
    by the close of the source stream; or, when only that close of the
    source fails, the copy, the temporary close, the move and the close of
    the source.  These five raise.  When nothing fails, [cp_file] returns
    after the copy, the temporary close, the move and the close of the
    source, and the two files, released on return, are finalized: the
    source stream and then the temporary stream are closed once more.  The
    move never precedes the close of the temporary stream, and a normal
    return has no delete. *)
Theorem cp_file_trace (path1 path2 token : string) (w : World) :
  let src := PyStr.rstrip "/" (_strip_protocol path1) in
  let dst := PyStr.rstrip "/" (_strip_protocol path2) in
  let tmp := tmp_fname _parent dst token in
  let t := _strip_protocol tmp in
  let out := cp_file _parent path1 path2 token w in
  exists made,
    calls (snd out) = (calls w ++ made)%list /\
    ((made = [OpenInputStream src] /\ exists e, fst out = Raise e) \/
     exists l,
       (made = [OpenInputStream src; OpenOutputStream t; DeleteFile tmp; Close l] /\
        exists e, fst out = Raise e) \/
       exists r,
         (made = [OpenInputStream src; OpenOutputStream t; CopyFileObj l r; Close r;
                  DeleteFile tmp; Close l] /\
          exists e, fst out = Raise e) \/
         (made = [OpenInputStream src; OpenOutputStream t; CopyFileObj l r; Close r;
                  Move tmp dst; DeleteFile tmp; Close l] /\
          exists e, fst out = Raise e) \/
         (made = [OpenInputStream src; OpenOutputStream t; CopyFileObj l r; Close r;
                  Move tmp dst; Close l] /\
          exists e, fst out = Raise e) \/
         (made = [OpenInputStream src; OpenOutputStream t; CopyFileObj l r; Close r;
                  Move tmp dst; Close l; Close l; Close r] /\
          fst out = Ok tt)).
Proof.
  intros src dst tmp t out.
  pose proof (_open_rb_run src None w) as Hopen.
  destruct (fs_open_input_stream src (pstate w)) as [[l|e0] s0] eqn:Hprim;
    cbn [fst snd] in Hopen.
  - set (lstream := mkArrowFile l src "rb" None) in *.
    set (w1 := mkWorld s0 (calls w ++ [OpenInputStream src])) in *.
    pose proof (cp_file_guarded_shape lstream tmp dst w1) as Hshape.
    cbv zeta in Hshape. fold t in Hshape. change (af_stream lstream) with l in Hshape.
    destruct (cp_file_guarded lstream tmp dst w1) as [[rstream|e] w2] eqn:Hguard;
      cbn [fst snd] in Hshape.
    + pose proof (cp_file_after_success _parent path1 path2 token w w1 w2 lstream rstream
                    Hopen Hguard) as Hout.
      cbv zeta in Hout. fold out in Hout. change (af_stream lstream) with l in Hout.
      destruct Hshape
        as [[[e1 He1] _]|[r [[[e1 He1] _]|[[[e1 He1] _]|[[rs [Hok Hr]] Hc]]]]];
        try discriminate He1.
      injection Hok as <-. rewrite Hr in Hout.
      destruct (fs_stream_close l (pstate w2)) as [[[]|c] s3]; cbn [fst snd] in Hout;
        rewrite Hout; cbn [fst snd calls]; rewrite Hc; unfold w1; cbn [calls];
        rewrite <- !app_assoc; cbn [app];
        eexists; (split; [reflexivity|]); right; exists l; right; exists r;
        right; right; [right; split; reflexivity|left; split; [reflexivity|]].
      eexists; reflexivity.
    + pose proof (cp_file_after_failure _parent path1 path2 token w w1 w2 lstream e
                    Hopen Hguard) as Hout.
      fold out in Hout. change (af_stream lstream) with l in Hout.
      rewrite Hout. cbn [fst snd calls].
      destruct Hshape
        as [[_ Hc]|[r [[_ Hc]|[[_ Hc]|[[rs [Hok _]] _]]]]];
        try discriminate Hok;
        rewrite Hc; unfold w1; cbn [calls]; rewrite <- !app_assoc; cbn [app];
        eexists; (split; [reflexivity|]); right; exists l.
      * left. split; [reflexivity|eexists; reflexivity].
      * right. exists r. left. split; [reflexivity|eexists; reflexivity].
      * right. exists r. right. left. split; [reflexivity|eexists; reflexivity].
  - assert (Hout : out = (Raise (normalize e0),
                          mkWorld s0 (calls w ++ [OpenInputStream src]))).
    { subst out. unfold cp_file. fold src.
      rewrite <- (normalize_idempotent e0). apply wrap_exceptions_raise.
      unfold bind at 1. unfold with_. rewrite Hopen. reflexivity. }
    rewrite Hout. cbn [fst snd calls]. exists [OpenInputStream src].
    split; [reflexivity|]. left. split; [reflexivity|eexists; reflexivity].
Qed.

(** X10: when the source cannot be opened, [cp_file] makes no other
    call, so that no temporary file is made and nothing is deleted, and it
    raises the provider's failure, reclassified once. *)
Theorem cp_file_source_unavailable (path1 path2 token : string) (w : World)
    (e : exn) (s : St) :
  let src := PyStr.rstrip "/" (_strip_protocol path1) in
  fs_open_input_stream src (pstate w) = (Raise e, s) ->
  cp_file _parent path1 path2 token w
  = (Raise (normalize e), mkWorld s (calls w ++ [OpenInputStream src])).
Proof.
  intros src Hopen. unfold cp_file. fold src.
  rewrite <- (normalize_idempotent e). apply wrap_exceptions_raise.
  unfold bind at 1. unfold with_. rewrite _open_rb_run, Hopen. reflexivity.
Qed.

(** X11: [mkdir] with [create_parents] is [makedirs] on the normalized
    path, whatever [exist_ok] is, and is [makedirs] on the path itself when
    the normalized path holds no further marker. *)
Theorem mkdir_parents_is_makedirs (path : string) (exist_ok : bool) (w : World) :
  mkdir path true w = makedirs (_strip_protocol path) exist_ok w /\
  (PyStr.contains "://" (_strip_protocol path) = false ->
   mkdir path true w = makedirs path exist_ok w).
Proof.
  assert (Hfirst : mkdir path true w = makedirs (_strip_protocol path) exist_ok w).
  { unfold mkdir. rewrite wrap_exceptions_run. unfold makedirs.
    rewrite !wrap_exceptions_run. cbn [fst snd].
    rewrite normalize_res_idempotent. reflexivity. }
  split; [exact Hfirst|].
  intros Hnone. rewrite Hfirst. unfold makedirs.
  rewrite (strip_without_marker _ Hnone). reflexivity.
Qed.

End MoreAdapterFacts.

(** ** The connection parameters read from a URL *)

Section HadoopFacts.

Variable infer_storage_options : string -> dict.

(** X12: the parameters [_get_kwargs_from_urls] returns hold at most the
    keys "host", "user" and "port", in that order: the URL's "host" and
    "port" under their own names and its "username" under "user", each
    only when the option is present with a true value, so that an empty
    host or user name and port 0 are left out; no other option of the URL
    is passed on. *)
Theorem get_kwargs_from_urls_lookup (path k : string) :
  let ops := infer_storage_options path in
  let out := _get_kwargs_from_urls infer_storage_options path in
  let kept key :=
    match dict_get key ops with
    | Some v => if truthy v then Some v else None
    | None => None
    end in
  dict_get k out
  = (if k =? "host" then kept "host"
     else if k =? "user" then kept "username"
     else if k =? "port" then kept "port"
     else None) /\
  map fst out
  = filter (fun key => match dict_get key out with Some _ => true | None => false end)
           ["host"; "user"; "port"].
Proof.
  cbv zeta. unfold _get_kwargs_from_urls, copy_if_set.
  destruct (dict_get "host" (infer_storage_options path)) as [vh|];
    [destruct (truthy vh)|];
    (destruct (dict_get "username" (infer_storage_options path)) as [vu|];
     [destruct (truthy vu)|]);
    (destruct (dict_get "port" (infer_storage_options path)) as [vp|];
     [destruct (truthy vp)|]);
    (split; [|reflexivity]);
    match goal with
    | |- dict_get k ?o = _ => let o' := eval cbv in o in change o with o'
    end;
    cbn [dict_get];
    rewrite ?(String.eqb_sym "host" k), ?(String.eqb_sym "user" k),
            ?(String.eqb_sym "port" k);
    destruct (k =? "host") eqn:Eh;
    try (apply String.eqb_eq in Eh; subst k);
    try reflexivity;
    destruct (k =? "user") eqn:Eu;
    try (apply String.eqb_eq in Eu; subst k);
    try reflexivity;
    destruct (k =? "port") eqn:Ep;
    try (apply String.eqb_eq in Ep; subst k);
    reflexivity.
Qed.

End HadoopFacts.

(** ** Trailing slashes *)

Lemma rstrip_app_slash (s : string) :
  PyStr.rstrip "/" (s ++ "/") = PyStr.rstrip "/" s.
Proof.
  induction s as [|c s IH]; [reflexivity|].
  change (String c s ++ "/") with (String c (s ++ "/")).
  cbn [PyStr.rstrip]. rewrite IH. reflexivity.
Qed.

Lemma prefix_app_false (sep u x : string) :
  String.prefix sep u = false ->
  String.length sep <= String.length u ->
  String.prefix sep (u ++ x) = false.
Proof.
  revert u. induction sep as [|c sep IH]; intros u H Hlen.
  - destruct u; discriminate H.
  - destruct u as [|d u]; [cbn in Hlen; lia|].
    cbn [String.prefix] in H. cbn [String.length] in Hlen.
    change (String d u ++ x) with (String d (u ++ x)). cbn [String.prefix].
    destruct (ascii_dec c d); [|reflexivity]. apply IH; [exact H|lia].
Qed.

(** Text added after a string leaves its first marker where it was. *)
Lemma split_first_app (sep s x h t : string) :
  PyStr.split_first sep s = Some (h, t) ->
  PyStr.split_first sep (s ++ x) = Some (h, t ++ x).
Proof.
  revert h t. induction s as [|c s IH]; intros h t Hs; cbn [PyStr.split_first] in Hs.
  - destruct (String.prefix sep "") eqn:E; [|discriminate Hs].
    inversion Hs; subst h t. destruct sep; [|discriminate E].
    destruct x; reflexivity.
  - destruct (String.prefix sep (String c s)) eqn:E.
    + inversion Hs; subst h t. destruct (prefix_app sep (String c s) x E) as [Hp Hsk].
      change (String c s ++ x) with (String c (s ++ x)) in *.
      cbn [PyStr.split_first]. rewrite Hp, Hsk. reflexivity.
    + destruct (PyStr.split_first sep s) as [[h' t']|] eqn:Es; [|discriminate Hs].
      inversion Hs; subst h t.
      assert (Hlen : String.length sep <= String.length (String c s)).
      { apply split_first_sound in Es. rewrite Es. cbn [String.length].
        rewrite !length_append. lia. }
      pose proof (prefix_app_false sep (String c s) x E Hlen) as Hno.
      change (String c s ++ x) with (String c (s ++ x)) in *.
      cbn [PyStr.split_first]. rewrite Hno, (IH h' t' eq_refl). reflexivity.
Qed.

Lemma strip_protocol_app (p x : string) :
  PyStr.contains "://" p = true ->
  _strip_protocol (p ++ x) = _strip_protocol p ++ x.
Proof.
  intros Hp. unfold _strip_protocol, stringify_path, PyStr.partition.
  assert (Hpx : PyStr.contains "://" (p ++ x) = true).
  { apply contains_spec. apply contains_spec in Hp. destruct Hp as (a & b & ->).
    exists a, (b ++ x). clear.
    induction a as [|c a IH]; cbn; [|f_equal; exact IH]. reflexivity. }
  rewrite Hp, Hpx. apply contains_split_first in Hp.
  destruct (PyStr.split_first "://" p) as [[h t]|] eqn:E; [|congruence].
  rewrite (split_first_app _ _ x _ _ E). reflexivity.
Qed.

Section TrailingSlash.

Context {St Stream : Type} {P : Provider St Stream}.

Variable _parent : string -> string.

(** X13: [mv], [rm] and [cp_file] ignore a slash at the end of a path:
    with or without it they are the same operation, as long as the slash
    does not complete a marker. *)
Theorem trailing_slash_ignored (p : string) :
  PyStr.contains "://" (p ++ "/") = PyStr.contains "://" p ->
  PyStr.rstrip "/" (_strip_protocol (p ++ "/")) = PyStr.rstrip "/" (_strip_protocol p) /\
  (forall q, mv (p ++ "/") q = mv (St := St) p q /\ mv q (p ++ "/") = mv (St := St) q p) /\
  (forall recursive maxdepth,
     rm (p ++ "/") recursive maxdepth = rm (St := St) p recursive maxdepth) /\
  (forall q token,
     cp_file _parent (p ++ "/") q token = cp_file (St := St) _parent p q token /\
     cp_file _parent q (p ++ "/") token = cp_file (St := St) _parent q p token).
Proof.
  intros Hsame.
  assert (Hnorm : PyStr.rstrip "/" (_strip_protocol (p ++ "/"))
                  = PyStr.rstrip "/" (_strip_protocol p)).
  { destruct (PyStr.contains "://" p) eqn:Hp.
    - rewrite (strip_protocol_app p "/" Hp). apply rstrip_app_slash.
    - rewrite (strip_without_marker _ Hsame), (strip_without_marker _ Hp).
      apply rstrip_app_slash. }
  split; [exact Hnorm|].
  unfold mv, rm, cp_file. rewrite Hnorm. repeat split.
Qed.

End TrailingSlash.

(** ** The further properties at work *)

Lemma strip_protocol_after_scheme_witness :
  _strip_protocol ("hdfs" ++ "://" ++ "host/a://b") = "host/a://b".
Proof. apply (strip_protocol_after_scheme "hdfs" "host/a://b"). reflexivity. Defined.

Lemma ls_in_provider_order_witness :
  ls "/d" false MemFS.world0
  = (Ok (Names ["/d/f"; "/d/sub"]),
     mkWorld MemFS.tree [GetFileInfo (FileSelector "/d")]).
Proof.
  assert (Hlook : fs_get_file_info (FileSelector "/d") (pstate MemFS.world0)
                  = (Ok [mkFileInfo "/d/f" File (Some 5%Z) None;
                         mkFileInfo "/d/sub" Directory None None], MemFS.tree))
    by (vm_compute; reflexivity).
  destruct (ls_in_provider_order "/d" MemFS.world0 _ _ Hlook) as (Hall & _).
  destruct Hall as (Hnames & _); [repeat constructor; discriminate|].
  exact Hnames.
Defined.

Lemma exists_never_not_found_witness :
  exists_ "/x" Offline.world0
    = (Raise Offline.refused, mkWorld tt [GetFileInfo (Paths ["/x"])]) /\
  isinstance Offline.refused FileNotFoundError = false.
Proof.
  assert (Hraised : exists_ "/x" Offline.world0
                    = (Raise Offline.refused, mkWorld tt [GetFileInfo (Paths ["/x"])]))
    by (vm_compute; reflexivity).
  split; [exact Hraised|].
  exact (exists_never_not_found "/x" Offline.world0 _ Offline.refused Hraised).
Defined.

Lemma exists_by_tag_witness :
  exists_ "hdfs://c" MemFS.world0
    = (Ok true, mkWorld MemFS.tree [GetFileInfo (Paths ["c"])]) /\
  exists_ "/nowhere" MemFS.world0
    = (Ok false, mkWorld MemFS.tree [GetFileInfo (Paths ["/nowhere"])]).
Proof.
  split.
  - apply (exists_by_tag "hdfs://c" MemFS.world0
             (mkFileInfo "c" File (Some 1%Z) None) MemFS.tree).
    vm_compute. reflexivity.
  - apply (exists_by_tag "/nowhere" MemFS.world0
             (mkFileInfo "/nowhere" NotFound None None) MemFS.tree).
    vm_compute. reflexivity.
Defined.

Lemma cp_file_source_unavailable_witness :
  cp_file MemFS.parent "/nofile" "/d/g" "00ff" MemFS.world0
  = (Raise (not_found_from "Path /nofile does not exist" (MemFS.missing "/nofile")),
     mkWorld MemFS.tree [OpenInputStream "/nofile"]).
Proof.
  pose proof (cp_file_source_unavailable MemFS.parent "/nofile" "/d/g" "00ff"
                MemFS.world0 (MemFS.missing "/nofile") MemFS.tree) as H.
  cbv zeta in H. rewrite H; [reflexivity|]. vm_compute. reflexivity.
Defined.

Lemma trailing_slash_ignored_witness :
  mv "/d/f/" "/d/g" = mv (St := MemFS.State) "/d/f" "/d/g".
Proof.
  destruct (trailing_slash_ignored (St := MemFS.State) MemFS.parent "/d/f" eq_refl)
    as (_ & Hmv & _).
  exact (proj1 (Hmv "/d/g")).
Defined.
